(** * smtp-api: the MailTm client and its HTTP facade (src/api/index.py)

    A shallow embedding of [MailTmClient] (account creation with bounded
    retries, inbox polling, account deletion) and of the
    [/api/wait_for_message] handler, followed by the properties the
    specification states about them.

    Conventions of the embedding.
    - JSON values and Python objects that come out of [response.json()] or
      [request.get_json()] are values of [json]; Python's [None] is [JNull].
    - Coroutines are functions in a reader/state/exception monad [M]: the
      reader part is the environment the code cannot control (the upstream
      provider, the random generator, the builtin [int] on strings), the
      state part is the event-loop clock, the trace of observable events,
      the number of random draws made, and the one client object in use.
    - The [while] loop of [wait_for_message] takes fuel; running out of it
      is the distinguished result [OutOfFuel], which no handler catches.
    - [logging] calls are dropped, except where formatting the logged text
      evaluates an expression that can raise. *)

From Stdlib Require Import ZArith List String Ascii Bool Lia.
From Stdlib Require Import QArith_base DecimalString.
Import ListNotations.

Local Open Scope string_scope.
Local Open Scope Z_scope.
Set Warnings "-register-all".

(* ================================================================== *)
(** ** JSON values and the Python operations applied to them *)
(* ================================================================== *)

(** A [dict] is an association list with the keys in insertion order; the
    dicts met here come from a JSON parser and have no duplicate keys. A
    float is a finite rational. *)
Inductive json : Type :=
| JNull
| JBool (b : bool)
| JInt (z : Z)
| JFloat (q : Q)
| JStr (s : string)
| JArr (items : list json)
| JObj (fields : list (string * json)).

(** The builtin exceptions the code can run into. *)
Inductive Builtin : Type :=
| KeyError | TypeError | AttributeError | ValueError | IndexError.

(** The exception classes of the module (section 2 of the source), with the
    message they are built from and, for [raise ... from e], the cause. *)
Inductive Exn : Type :=
| MailTmError (msg : string)
| AccountCreationError (msg : string) (cause : option Exn)
| MessageTimeoutError (msg : string)
| PyError (b : Builtin).

(** [isinstance(e, MailTmError)]: the two other classes derive from it. *)
Definition is_MailTmError (e : Exn) : bool :=
  match e with
  | MailTmError _ | AccountCreationError _ _ | MessageTimeoutError _ => true
  | PyError _ => false
  end.

Definition is_MessageTimeoutError (e : Exn) : bool :=
  match e with MessageTimeoutError _ => true | _ => false end.

Definition is_AccountCreationError (e : Exn) : bool :=
  match e with AccountCreationError _ _ => true | _ => false end.

(** [str(e)] for the module's exceptions. *)
Definition exn_str (e : Exn) : string :=
  match e with
  | MailTmError m | AccountCreationError m _ | MessageTimeoutError m => m
  | PyError _ => ""
  end.

(** Truth value of an object, as tested by [if x] and [not x]. *)
Definition truthy (j : json) : bool :=
  match j with
  | JNull => false
  | JBool b => b
  | JInt z => negb (z =? 0)
  | JFloat q => negb (Qnum q =? 0)
  | JStr s => negb (String.eqb s "")
  | JArr items => match items with [] => false | _ => true end
  | JObj fields => match fields with [] => false | _ => true end
  end.

Fixpoint lookup (k : string) (fields : list (string * json)) : option json :=
  match fields with
  | [] => None
  | (k', v) :: rest => if String.eqb k k' then Some v else lookup k rest
  end.

(** [d.get(k)]: only a dict has the method. *)
Definition dict_get (d : json) (k : string) : Exn + option json :=
  match d with
  | JObj fields => inr (lookup k fields)
  | _ => inl (PyError AttributeError)
  end.

(** [d.get(k, default)]. *)
Definition dict_get_default (d : json) (k : string) (default : json)
  : Exn + json :=
  match dict_get d k with
  | inl e => inl e
  | inr (Some v) => inr v
  | inr None => inr default
  end.

(** [d[k]] for a string key [k]. *)
Definition getitem (d : json) (k : string) : Exn + json :=
  match d with
  | JObj fields =>
      match lookup k fields with
      | Some v => inr v
      | None => inl (PyError KeyError)
      end
  | _ => inl (PyError TypeError)
  end.

(** [xs[0]]. *)
Definition getitem_0 (xs : json) : Exn + json :=
  match xs with
  | JArr [] => inl (PyError IndexError)
  | JArr (x :: _) => inr x
  | JStr EmptyString => inl (PyError IndexError)
  | JStr (String c _) => inr (JStr (String c EmptyString))
  | JObj _ => inl (PyError KeyError)
  | _ => inl (PyError TypeError)
  end.

Definition is_str (k : string) (j : json) : bool :=
  match j with JStr s => String.eqb s k | _ => false end.

Fixpoint substring_of (k s : string) : bool :=
  if prefix k s then true
  else match s with
       | EmptyString => false
       | String _ rest => substring_of k rest
       end.

(** [k in d] for a string [k]: a key of a dict, an element of a list, a
    substring of a string. *)
Definition contains (d : json) (k : string) : Exn + bool :=
  match d with
  | JObj fields =>
      inr (match lookup k fields with Some _ => true | None => false end)
  | JArr items => inr (existsb (is_str k) items)
  | JStr s => inr (substring_of k s)
  | _ => inl (PyError TypeError)
  end.

Fixpoint chars (s : string) : list json :=
  match s with
  | EmptyString => []
  | String c rest => JStr (String c EmptyString) :: chars rest
  end.

(** What [for mb in xs] ranges over. *)
Definition iterate (xs : json) : Exn + list json :=
  match xs with
  | JArr items => inr items
  | JObj fields => inr (map (fun kv => JStr (fst kv)) fields)
  | JStr s => inr (chars s)
  | _ => inl (PyError TypeError)
  end.

(** [next((mb for mb in mailboxes if mb.get("path") == "INBOX"), None)] over
    the elements of [mailboxes]: the generator is lazy, so an element after
    the first match is never looked at. *)
Fixpoint find_inbox (mailboxes : list json) : Exn + option json :=
  match mailboxes with
  | [] => inr None
  | mb :: rest =>
      match dict_get mb "path" with
      | inl e => inl e
      | inr (Some (JStr p)) =>
          if String.eqb p "INBOX" then inr (Some mb) else find_inbox rest
      | inr _ => find_inbox rest
      end
  end.

(** [int(x)]; [int_of_str] is the builtin's reading of a string (surrounding
    blanks, sign, digits), [None] where it raises. *)
Definition py_int (int_of_str : string -> option Z) (x : json) : Exn + Z :=
  match x with
  | JInt z => inr z
  | JBool b => inr (if b then 1 else 0)
  | JFloat q => inr (Z.quot (Qnum q) (Zpos (Qden q)))
  | JStr s =>
      match int_of_str s with
      | Some z => inr z
      | None => inl (PyError ValueError)
      end
  | JNull | JArr _ | JObj _ => inl (PyError TypeError)
  end.

(** [str(n)] for an [int]. *)
Definition str_of_int (n : Z) : string := NilZero.string_of_int (Z.to_int n).

(* ================================================================== *)
(** ** The world outside the client *)
(* ================================================================== *)

(** The endpoints the client builds, kept by their f-string and the values
    interpolated in it:
    - [EpAccounts]: ["accounts"];
    - [EpAccount a]: [f"accounts/{a}"];
    - [EpMessages a m]: [f"accounts/{a}/mailboxes/{m}/messages"]. *)
Inductive Endpoint : Type :=
| EpAccounts
| EpAccount (account : json)
| EpMessages (account mailbox : json).

Record Request : Type := mkRequest {
  method : string;
  endpoint : Endpoint;
  payload : option json
}.

(** What [session.request] comes back with: an [httpx.RequestError], or a
    response; [body] is what [response.json()] gives, [None] where the text
    is not JSON. These are the outcomes of a request that was sent. An
    exception of another class, raised before anything is sent
    ([httpx.InvalidURL], for an identifier that puts a non-printable
    character in the URL), is not among them: the properties below speak
    of runs in which [session.request] comes back in one of these two
    ways. *)
Inductive HttpOutcome : Type :=
| RequestError (detail : string)
| Response (status_code : Z) (text : string) (body : option json).

Inductive Event : Type :=
| EvRequest (r : Request)
| EvSleep (seconds : Z)
| EvClose.

(** The part of the world the code does not control. [upstream] answers a
    request given everything that happened before it, and says how long the
    call took on the event-loop clock; [rand n] is the [n]-th number the
    random generator hands out. *)
Record Env : Type := mkEnv {
  upstream : list Event -> Request -> nat * HttpOutcome;
  rand : nat -> nat;
  int_of_str : string -> option Z
}.

(** The fields of a [MailTmClient] instance. *)
Record Client : Type := mkClient {
  api_key : string;
  address : option string;
  password : option string;
  account_id : json;
  mailbox_id : json
}.

Record State : Type := mkState {
  clock : Z;
  trace : list Event;
  drawn : nat;
  self : Client
}.

(* ================================================================== *)
(** ** The monad *)
(* ================================================================== *)

Inductive Res (A : Type) : Type :=
| Ok (a : A)
| Err (e : Exn)
| OutOfFuel.
Arguments Ok {A} a.
Arguments Err {A} e.
Arguments OutOfFuel {A}.

Definition M (A : Type) : Type := Env -> State -> Res A * State.

Definition ret {A} (a : A) : M A := fun _ s => (Ok a, s).

Definition raise {A} (e : Exn) : M A := fun _ s => (Err e, s).

Definition bind {A B} (m : M A) (k : A -> M B) : M B :=
  fun env s =>
    match m env s with
    | (Ok a, s1) => k a env s1
    | (Err e, s1) => (Err e, s1)
    | (OutOfFuel, s1) => (OutOfFuel, s1)
    end.

Declare Scope py_scope.
Delimit Scope py_scope with py.
Notation "x <- m ;; k" := (bind m (fun x => k))
  (at level 61, m at next level, right associativity) : py_scope.
Notation "m ;; k" := (bind m (fun _ => k))
  (at level 61, right associativity) : py_scope.
Local Open Scope py_scope.

(** An expression that may raise. *)
Definition lift {A} (r : Exn + A) : M A :=
  match r with inl e => raise e | inr a => ret a end.

(** The [except] clauses of a [try], in order: a class test and the handler
    run when it is the first to hold. *)
Fixpoint handle {A} (clauses : list ((Exn -> bool) * (Exn -> M A)))
    (e : Exn) : M A :=
  match clauses with
  | [] => raise e
  | (class, handler) :: rest =>
      if class e then handler e else handle rest e
  end.

(** [try: m  except ...]; an exception no clause takes goes through, and so
    does one raised by a handler. *)
Definition try_except {A} (m : M A)
    (clauses : list ((Exn -> bool) * (Exn -> M A))) : M A :=
  fun env s =>
    match m env s with
    | (Err e, s1) => handle clauses e env s1
    | r => r
    end.

(** [try: m  finally: f]. *)
Definition try_finally {A} (m : M A) (f : M unit) : M A :=
  fun env s =>
    match m env s with
    | (OutOfFuel, s1) => (OutOfFuel, s1)
    | (r, s1) =>
        match f env s1 with
        | (Ok _, s2) => (r, s2)
        | (Err e, s2) => (Err e, s2)
        | (OutOfFuel, s2) => (OutOfFuel, s2)
        end
    end.

Definition get_self : M Client := fun _ s => (Ok (self s), s).

Definition put_self (c : Client) : M unit :=
  fun _ s => (Ok tt, mkState (clock s) (trace s) (drawn s) c).

(** [asyncio.get_event_loop().time()]. *)
Definition loop_time : M Z := fun _ s => (Ok (clock s), s).

(** [await asyncio.sleep(seconds)]: a delay that is not positive returns
    without waiting. *)
Definition sleep (seconds : Z) : M unit :=
  fun _ s =>
    (Ok tt, mkState (clock s + Z.max 0 seconds)
                    (trace s ++ [EvSleep seconds]) (drawn s) (self s)).

(** [random.choice(letters)]. *)
Definition random_choice (letters : string) : M ascii :=
  fun env s =>
    let s1 := mkState (clock s) (trace s) (S (drawn s)) (self s) in
    match String.get (Nat.modulo (rand env (drawn s)) (String.length letters))
                     letters with
    | Some c => (Ok c, s1)
    | None => (Err (PyError IndexError), s1)
    end.

(* ================================================================== *)
(** ** Section 3 of the source: the random string generator *)
(* ================================================================== *)

(** [string.ascii_lowercase + string.digits]. *)
Definition letters : string := "abcdefghijklmnopqrstuvwxyz0123456789".

(** [''.join(random.choice(letters) for _ in range(length))]. *)
Fixpoint generate_random_username (length : nat) : M string :=
  match length with
  | O => ret ""
  | S n =>
      c <- random_choice letters ;;
      rest <- generate_random_username n ;;
      ret (String c rest)
  end.

(* ================================================================== *)
(** ** Section 4 of the source: [MailTmClient] *)
(* ================================================================== *)

(** [__init__(self, api_key)]: the new object becomes the client in use. *)
Definition MailTmClient (key : string) : M unit :=
  if String.eqb key "" then raise (PyError ValueError)
  else put_self (mkClient key None None JNull JNull).

(** [response.raise_for_status()] lets the 2xx codes through. *)
Definition is_success (status : Z) : bool :=
  (200 <=? status) && (status <=? 299).

(** What [_request] makes of the outcome of [session.request]. *)
Definition decode (o : HttpOutcome) : Exn + json :=
  match o with
  | RequestError detail =>
      inl (MailTmError ("網路連線錯誤: " ++ detail))
  | Response status text body =>
      if negb (is_success status)
      then inl (MailTmError ("API 請求失敗: " ++ text))
      else if status =? 204 then inr JNull
      else match body with
           | Some j => inr j
           | None => inl (PyError ValueError)
           end
  end.

(** [_request(self, method, endpoint, **kwargs)]. *)
Definition _request (meth : string) (ep : Endpoint) (body : option json)
  : M json :=
  fun env s =>
    let r := mkRequest meth ep body in
    let (latency, o) := upstream env (trace s) r in
    let s1 := mkState (clock s + Z.of_nat latency)
                      (trace s ++ [EvRequest r]) (drawn s) (self s) in
    match decode o with
    | inl e => (Err e, s1)
    | inr j => (Ok j, s1)
    end.

Definition account_payload (addr pw : string) : json :=
  JObj [("address", JStr addr); ("password", JStr pw)].

(** [_create_account(self, address, password)]. *)
Definition _create_account (addr pw : string) : M json :=
  _request "POST" EpAccounts (Some (account_payload addr pw)).

(** The body of the [try] in [create_new_account], up to [return instance]. *)
Definition create_attempt (domain pw : string) : M unit :=
  username <- generate_random_username 10 ;;
  let addr := username ++ "@" ++ domain in
  account_data <- _create_account addr pw ;;
  id <- lift (getitem account_data "id") ;;
  c <- get_self ;;
  put_self (mkClient (api_key c) (Some addr) (Some pw) id (mailbox_id c)) ;;
  mailboxes <- lift (dict_get_default account_data "mailboxes" (JArr [])) ;;
  elements <- lift (iterate mailboxes) ;;
  found <- lift (find_inbox elements) ;;
  match found with
  | None => raise (MailTmError "在帳號中未找到 INBOX")
  | Some inbox =>
      if negb (truthy inbox)
      then raise (MailTmError "在帳號中未找到 INBOX")
      else
        mid <- lift (getitem inbox "id") ;;
        c <- get_self ;;
        put_self (mkClient (api_key c) (address c) (password c)
                           (account_id c) mid)
  end.

(** The [for attempt in range(max_retries)] loop from [attempt] on, with
    [remaining] iterations to go, and the [raise] after it. The result says
    nothing: the instance is the client in use. *)
Fixpoint create_loop (domain pw : string) (max_retries : Z)
    (remaining : nat) (attempt : Z) : M unit :=
  match remaining with
  | O => raise (AccountCreationError "未知錯誤導致帳號創建失敗。" None)
  | S rest =>
      returned <-
        try_except
          (create_attempt domain pw ;; ret true)
          [(is_MailTmError,
            fun e =>
              if attempt <? max_retries - 1
              then sleep 3 ;; ret false
              else raise (AccountCreationError
                            ("創建帳號失敗，已達最大重試次數: " ++ exn_str e)
                            (Some e)))] ;;
      if returned then ret tt
      else create_loop domain pw max_retries rest (attempt + 1)
  end.

(** [create_new_account(cls, api_key, domain, password, max_retries)]. *)
Definition create_new_account (key domain pw : string) (max_retries : Z)
  : M Client :=
  MailTmClient key ;;
  create_loop domain pw max_retries (Z.to_nat max_retries) 0 ;;
  get_self.

(** [get_latest_message(self)]; formatting the log line evaluates
    [latest_message.get('intro')]. *)
Definition get_latest_message : M json :=
  c <- get_self ;;
  if negb (truthy (account_id c)) || negb (truthy (mailbox_id c))
  then raise (MailTmError "帳號資訊未初始化，無法獲取訊息。")
  else
    messages <- _request "GET" (EpMessages (account_id c) (mailbox_id c))
                         None ;;
    if truthy messages then
      latest_message <- lift (getitem_0 messages) ;;
      _ <- lift (dict_get latest_message "intro") ;;
      ret latest_message
    else ret JNull.

(** The [while] loop of [wait_for_message] and the [raise] after it. *)
Fixpoint wait_loop (fuel : nat) (start_time timeout interval : Z) : M json :=
  match fuel with
  | O => fun _ s => (OutOfFuel, s)
  | S fuel' =>
      t <- loop_time ;;
      if t - start_time <? timeout then
        message <- get_latest_message ;;
        if truthy message then ret message
        else sleep interval ;;
             wait_loop fuel' start_time timeout interval
      else raise (MessageTimeoutError
                    ("在 " ++ str_of_int timeout ++ " 秒內未收到任何郵件。"))
  end.

(** [wait_for_message(self, timeout, interval)]. *)
Definition wait_for_message (fuel : nat) (timeout interval : Z) : M json :=
  start_time <- loop_time ;;
  wait_loop fuel start_time timeout interval.

(** [delete_account(self)]. *)
Definition delete_account : M unit :=
  c <- get_self ;;
  if negb (truthy (account_id c)) then ret tt
  else
    _request "DELETE" (EpAccount (account_id c)) None ;;
    c <- get_self ;;
    put_self (mkClient (api_key c) (address c) (password c) JNull
                       (mailbox_id c)) ;;
    c <- get_self ;;
    put_self (mkClient (api_key c) None (password c) (account_id c)
                       (mailbox_id c)).

(** [close_session(self)]. *)
Definition close_session : M unit :=
  fun _ s =>
    (Ok tt, mkState (clock s) (trace s ++ [EvClose]) (drawn s) (self s)).

(* ================================================================== *)
(** ** Section 5 of the source: the [/api/wait_for_message] handler *)
(* ================================================================== *)

Definition error_body (msg : string) : json := JObj [("error", JStr msg)].

(** [int(x)] in the monad. *)
Definition to_int (x : json) : M Z :=
  fun env s => lift (py_int (int_of_str env) x) env s.

(** [not data or "accountId" not in data or "mailboxId" not in data]. *)
Definition missing_ids (data : json) : M bool :=
  if negb (truthy data) then ret true
  else
    has_account <- lift (contains data "accountId") ;;
    if negb has_account then ret true
    else
      has_mailbox <- lift (contains data "mailboxId") ;;
      ret (negb has_mailbox).

(** [api_wait_for_message()]: [MAILTM_API_KEY] is what the environment
    variable held when the module was loaded, [data] what
    [request.get_json()] returned. The result is the pair handed to the
    framework: the body given to [jsonify], and the status. *)
Definition api_wait_for_message (fuel : nat) (MAILTM_API_KEY : option string)
    (data : json) : M (json * Z) :=
  match MAILTM_API_KEY with
  | None | Some EmptyString =>
      ret (error_body "Server is not configured with an API key.", 500)
  | Some key =>
      missing <- missing_ids data ;;
      if missing
      then ret (error_body
                  "Missing 'accountId' or 'mailboxId' in request body", 400)
      else
        account <- lift (getitem data "accountId") ;;
        mailbox <- lift (getitem data "mailboxId") ;;
        timeout <- lift (dict_get_default data "timeout" (JInt 60)) ;;
        interval <- lift (dict_get_default data "interval" (JInt 5)) ;;
        MailTmClient key ;;
        c <- get_self ;;
        put_self (mkClient (api_key c) (address c) (password c) account
                           (mailbox_id c)) ;;
        c <- get_self ;;
        put_self (mkClient (api_key c) (address c) (password c)
                           (account_id c) mailbox) ;;
        try_finally
          (try_except
             (t <- to_int timeout ;;
              i <- to_int interval ;;
              message <- wait_for_message fuel t i ;;
              ret (message, 200))
             [(is_MessageTimeoutError,
               fun e => ret (error_body (exn_str e), 408));
              (is_MailTmError,
               fun e => ret (error_body (exn_str e), 500))])
          close_session
  end.

(** The status the caller sees: the one the handler returned, or 500, the
    framework's answer to an exception that leaves the handler. *)
Definition http_status (r : Res (json * Z)) : option Z :=
  match r with
  | Ok (_, status) => Some status
  | Err _ => Some 500
  | OutOfFuel => None
  end.

(** A [try] whose [finally] clause reads a local variable that is [None]
    until the body assigns it. The body hands back the variable along with
    its result; an exception finds the variable at [None]. (In
    [api_create_account] the variable is assigned by the call that can
    raise, and nothing after the assignment raises.) *)
Definition try_finally_local {L A} (m : M (option L * A))
    (f : option L -> M unit) : M A :=
  fun env s =>
    match m env s with
    | (OutOfFuel, s1) => (OutOfFuel, s1)
    | (Ok (v, a), s1) =>
        match f v env s1 with
        | (Ok _, s2) => (Ok a, s2)
        | (Err e, s2) => (Err e, s2)
        | (OutOfFuel, s2) => (OutOfFuel, s2)
        end
    | (Err e, s1) =>
        match f None env s1 with
        | (Ok _, s2) => (Err e, s2)
        | (Err e', s2) => (Err e', s2)
        | (OutOfFuel, s2) => (OutOfFuel, s2)
        end
    end.

(** A [str | None] field as [jsonify] sees it. *)
Definition opt_str (v : option string) : json :=
  match v with Some x => JStr x | None => JNull end.

(** [response_data] of [api_create_account]. *)
Definition response_data (client : Client) : json :=
  JObj [("message", JStr "Account created successfully");
        ("address", opt_str (address client));
        ("password", opt_str (password client));
        ("accountId", account_id client);
        ("mailboxId", mailbox_id client)].

(** [index()]. *)
Definition index : M (json * Z) :=
  ret (JObj [("status", JStr "ok");
             ("message", JStr "MailTm API wrapper is running.")], 200).

(** [api_create_account()]: the factory is called with its defaults. *)
Definition api_create_account (MAILTM_API_KEY : option string)
  : M (json * Z) :=
  match MAILTM_API_KEY with
  | None | Some EmptyString =>
      ret (error_body "Server is not configured with an API key.", 500)
  | Some key =>
      try_finally_local
        (try_except
           (client <- create_new_account key "vvvcx.me" "thisispassword" 3 ;;
            ret (Some client, (response_data client, 201)))
           [(is_AccountCreationError,
             fun e => ret (None, (error_body (exn_str e), 500)))])
        (fun client =>
           match client with
           | Some _ => close_session
           | None => ret tt
           end)
  end.

(** [api_delete_account(account_id)]; [account] is the path segment. *)
Definition api_delete_account (MAILTM_API_KEY : option string)
    (account : string) : M (json * Z) :=
  match MAILTM_API_KEY with
  | None | Some EmptyString =>
      ret (error_body "Server is not configured with an API key.", 500)
  | Some key =>
      MailTmClient key ;;
      c <- get_self ;;
      put_self (mkClient (api_key c) (address c) (password c) (JStr account)
                         (mailbox_id c)) ;;
      try_finally
        (try_except
           (delete_account ;;
            ret (JObj [("message",
                        JStr ("Account " ++ account
                              ++ " deleted successfully."))], 200))
           [(is_MailTmError,
             fun e => ret (error_body (exn_str e), 500))])
        close_session
  end.

(* ================================================================== *)
(** ** Vocabulary of the properties *)
(* ================================================================== *)

(** What [_request] returns or raises for request [r] after history [h]. *)
Definition answer (env : Env) (h : list Event) (r : Request) : Exn + json :=
  decode (snd (upstream env h r)).

(** The gateway layer fails: a transport error or a status outside 2xx. *)
Definition gateway_fails (o : HttpOutcome) : bool :=
  match o with
  | RequestError _ => true
  | Response status _ _ => negb (is_success status)
  end.

Definition creation_request (addr pw : string) : Request :=
  mkRequest "POST" EpAccounts (Some (account_payload addr pw)).

Definition fetch_request (account mailbox : json) : Request :=
  mkRequest "GET" (EpMessages account mailbox) None.

Definition delete_request (account : json) : Request :=
  mkRequest "DELETE" (EpAccount account) None.

Definition is_creation (ev : Event) : bool :=
  match ev with
  | EvRequest (mkRequest m EpAccounts _) => String.eqb m "POST"
  | _ => false
  end.

(** Number of account-creation calls in a trace. *)
Definition creation_calls (t : list Event) : nat :=
  List.length (filter is_creation t).

(** The delays of the sleeps in a trace, in order. *)
Definition sleeps (t : list Event) : list Z :=
  flat_map (fun ev => match ev with EvSleep d => [d] | _ => [] end) t.

(** The letter the [k]-th draw selects. *)
Definition letter (env : Env) (k : nat) : ascii :=
  match String.get (Nat.modulo (rand env k) 36) letters with
  | Some c => c
  | None => zero
  end.

(** The username made of the draws [pos], ..., [pos + n - 1]. *)
Fixpoint username_at (env : Env) (pos n : nat) : string :=
  match n with
  | O => ""
  | S m => String (letter env pos) (username_at env (S pos) m)
  end.

Definition address_at (env : Env) (domain : string) (pos : nat) : string :=
  username_at env pos 10 ++ "@" ++ domain.

(** The events of [n] failed attempts in a row, the first one drawing from
    position [pos]: a creation call each, three seconds of sleep between two
    of them. *)
Fixpoint retry_trace (env : Env) (domain pw : string) (pos n : nat)
  : list Event :=
  match n with
  | O => []
  | S m =>
      EvRequest (creation_request (address_at env domain pos) pw)
      :: match m with
         | O => []
         | S _ => EvSleep 3 :: retry_trace env domain pw (pos + 10) m
         end
  end.

Definition is_lower_alnum (c : ascii) : bool :=
  let n := nat_of_ascii c in
  ((97 <=? n) && (n <=? 122) || (48 <=? n) && (n <=? 57))%nat.

Fixpoint strip_local (n : nat) (s : string) : option string :=
  match n with
  | O => Some s
  | S m =>
      match s with
      | EmptyString => None
      | String c rest =>
          if is_lower_alnum c then strip_local m rest else None
      end
  end.

(** The address matches [^[a-z0-9]{10}@<domain>$], [<domain>] standing for
    the domain's own characters. *)
Definition address_matches (domain addr : string) : bool :=
  match strip_local 10 addr with
  | Some (String "@"%char rest) => String.eqb rest domain
  | _ => false
  end.

(** The entry [create_attempt] takes for the inbox of [account_data]. *)
Definition inbox_of (account_data : json) : Exn + option json :=
  match dict_get_default account_data "mailboxes" (JArr []) with
  | inl e => inl e
  | inr mailboxes =>
      match iterate mailboxes with
      | inl e => inl e
      | inr elements => find_inbox elements
      end
  end.

Definition config_error : Exn :=
  MailTmError "帳號資訊未初始化，無法獲取訊息。".

Definition no_inbox_error : Exn := MailTmError "在帳號中未找到 INBOX".

Definition timeout_error (timeout : Z) : Exn :=
  MessageTimeoutError ("在 " ++ str_of_int timeout ++ " 秒內未收到任何郵件。").

(** [d.get(k, default)] once [d] is known to be a dict with fields [v]. *)
Definition or_default (v : option json) (default : json) : json :=
  match v with Some x => x | None => default end.

(** The state [close_session] leaves. *)
Definition closed (s : State) : State :=
  mkState (clock s) (trace s ++ [EvClose]) (drawn s) (self s).

(** The state in which the handler starts polling. *)
Definition polling_state (key : string) (account mailbox : json) (s : State)
  : State :=
  mkState (clock s) (trace s) (drawn s)
          (mkClient key None None account mailbox).

(** The addresses handed to the creation calls of a trace, in order. *)
Definition posted_addresses (t : list Event) : list json :=
  flat_map
    (fun ev =>
       match ev with
       | EvRequest (mkRequest _ EpAccounts (Some p)) =>
           match getitem p "address" with
           | inr a => [a]
           | inl _ => []
           end
       | _ => []
       end) t.

(** The account data carries a mailbox list, possibly by default the empty
    one, whose entries are objects none of which has the path ["INBOX"]. *)
Definition lacks_inbox (account_data : json) : Prop :=
  exists mailboxes,
    (dict_get account_data "mailboxes" = inr (Some (JArr mailboxes)) \/
     dict_get account_data "mailboxes" = inr None /\ mailboxes = []) /\
    forall mb, In mb mailboxes ->
               exists fields, mb = JObj fields /\
                              lookup "path" fields <> Some (JStr "INBOX").

(** The state an attempt started in [s] is in once its creation call has
    come back. *)
Definition sent (env : Env) (domain pw : string) (s : State) : State :=
  let r := creation_request (address_at env domain (drawn s)) pw in
  mkState (clock s + Z.of_nat (fst (upstream env (trace s) r)))
          (trace s ++ [EvRequest r]) (drawn s + 10) (self s).

Definition with_self (s : State) (c : Client) : State :=
  mkState (clock s) (trace s) (drawn s) c.

(** The state after the three seconds of back-off. *)
Definition slept (s : State) : State :=
  mkState (clock s + 3) (trace s ++ [EvSleep 3]) (drawn s) (self s).

Fixpoint all_lower_alnum (u : string) : bool :=
  match u with
  | EmptyString => true
  | String c rest => is_lower_alnum c && all_lower_alnum rest
  end.

(** The events of [k] fruitless polling rounds: a fetch, then a sleep of
    [interval]. *)
Fixpoint poll_trace (account mailbox : json) (interval : Z) (k : nat)
  : list Event :=
  match k with
  | O => []
  | S k' =>
      EvRequest (fetch_request account mailbox) :: EvSleep interval
      :: poll_trace account mailbox interval k'
  end.

Definition is_close (ev : Event) : bool :=
  match ev with EvClose => true | _ => false end.

(** Number of times the session was closed in a trace. *)
Definition closes (t : list Event) : nat := List.length (filter is_close t).

(** An event of a poll on [account], [mailbox] with sleeps of [interval]. *)
Definition is_poll_event (account mailbox : json) (interval : Z)
    (ev : Event) : Prop :=
  ev = EvRequest (fetch_request account mailbox) \/ ev = EvSleep interval.

(** The state after the client's one request [r]. *)
Definition requested (env : Env) (r : Request) (s : State) : State :=
  mkState (clock s + Z.of_nat (fst (upstream env (trace s) r)))
          (trace s ++ [EvRequest r]) (drawn s) (self s).

(** The state after [k] fruitless polling rounds against a gateway that
    answers at once. *)
Definition polled (account mailbox : json) (interval : Z) (k : nat)
    (s : State) : State :=
  mkState (clock s + Z.of_nat k * interval)
          (trace s ++ poll_trace account mailbox interval k)
          (drawn s) (self s).

(** A list holds the name [k] as one of its elements, a string holds it as
    a run of consecutive characters. *)
Definition holds_name (data : json) (k : string) : Prop :=
  match data with
  | JArr items => In (JStr k) items
  | JStr str => exists before after, str = before ++ k ++ after
  | _ => False
  end.

(* ================================================================== *)
(** ** Test doubles: gateways, generators and start states *)
(* ================================================================== *)

Module Stub.

Definition no_client : Client := mkClient "" None None JNull JNull.

Definition fresh : State := mkState 0 [] 0 no_client.

(** A client resolved to account ["acc1"], mailbox ["mb1"]. *)
Definition ready : State :=
  mkState 0 [] 0
    (mkClient "key" (Some "a@vvvcx.me") (Some "thisispassword")
              (JStr "acc1") (JStr "mb1")).

(** A client whose account id was never set. *)
Definition unset : State :=
  mkState 0 [] 0 (mkClient "key" None None JNull (JStr "mb1")).

Definition decimal (s : string) : option Z :=
  match NilZero.int_of_string s with
  | Some d => Some (Z.of_int d)
  | None => None
  end.

Definition count_up (n : nat) : nat := n.

Definition always_zero (n : nat) : nat := O.

Definition env_of (gw : list Event -> Request -> nat * HttpOutcome)
    (rnd : nat -> nat) : Env :=
  mkEnv gw rnd decimal.

(** Every call fails with 503. *)
Definition down (h : list Event) (r : Request) : nat * HttpOutcome :=
  (O, Response 503 "unavailable" None).

Definition account (id mid : string) : json :=
  JObj [("id", JStr id);
        ("address", JStr "x@vvvcx.me");
        ("mailboxes",
         JArr [JObj [("id", JStr "mbx0"); ("path", JStr "Trash")];
               JObj [("id", JStr mid); ("path", JStr "INBOX")]])].

Definition account_without_inbox : json :=
  JObj [("id", JStr "acc1");
        ("mailboxes",
         JArr [JObj [("id", JStr "mbx0"); ("path", JStr "Trash")]])].

(** The first two creation calls fail, the later ones succeed. *)
Definition fails_twice (h : list Event) (r : Request) : nat * HttpOutcome :=
  if (creation_calls h <? 2)%nat
  then (O, RequestError "connection refused")
  else (O, Response 201 "{...}" (Some (account "acc1" "mb1"))).

(** Creation succeeds, with empty identifiers. *)
Definition empty_ids (h : list Event) (r : Request) : nat * HttpOutcome :=
  (O, Response 201 "{...}" (Some (account "" ""))).

(** Creation succeeds, the account has no inbox. *)
Definition inboxless (h : list Event) (r : Request) : nat * HttpOutcome :=
  (O, Response 201 "{...}" (Some account_without_inbox)).

(** The mailbox is empty, at once. *)
Definition empty_mailbox (h : list Event) (r : Request)
  : nat * HttpOutcome :=
  (O, Response 200 "[]" (Some (JArr []))).

Definition message : json :=
  JObj [("id", JStr "m1"); ("intro", JStr "hello")].

(** The mailbox holds a message; a DELETE is answered 204. *)
Definition has_mail (h : list Event) (r : Request) : nat * HttpOutcome :=
  if String.eqb (method r) "DELETE" then (O, Response 204 "" None)
  else (O, Response 200 "[...]" (Some (JArr [message]))).

(** Creation is answered 201 with an object that has no id. *)
Definition malformed (h : list Event) (r : Request) : nat * HttpOutcome :=
  (O, Response 201 "{}" (Some (JObj [("address", JStr "x@vvvcx.me")]))).

Definition is_fetch (ev : Event) : bool :=
  match ev with
  | EvRequest r => String.eqb (method r) "GET"
  | _ => false
  end.

(** The mailbox is empty for the first two fetches, then holds a message. *)
Definition arrives_third (h : list Event) (r : Request) : nat * HttpOutcome :=
  if (List.length (filter is_fetch h) <? 2)%nat
  then (O, Response 200 "[]" (Some (JArr [])))
  else (O, Response 200 "[...]" (Some (JArr [message]))).

(** The mailbox is empty for the first two fetches, then the gateway is
    down. *)
Definition breaks_third (h : list Event) (r : Request) : nat * HttpOutcome :=
  if (List.length (filter is_fetch h) <? 2)%nat
  then (O, Response 200 "[]" (Some (JArr [])))
  else (O, Response 502 "bad gateway" None).

(** Creation is answered 201 with a usable account, at once. *)
Definition up (h : list Event) (r : Request) : nat * HttpOutcome :=
  (O, Response 201 "{...}" (Some (account "acc1" "mb1"))).

Definition account_with_null_mailbox : json :=
  JObj [("id", JStr "acc1"); ("mailboxes", JArr [JNull])].

(** Creation succeeds, the mailbox list holds [null]. *)
Definition null_mailbox (h : list Event) (r : Request) : nat * HttpOutcome :=
  (O, Response 201 "{...}" (Some account_with_null_mailbox)).

End Stub.

(* ================================================================== *)
(** ** Running the primitives *)
(* ================================================================== *)

Lemma request_run meth ep body env s :
  _request meth ep body env s =
  (match answer env (trace s) (mkRequest meth ep body) with
   | inl e => Err e
   | inr j => Ok j
   end,
   mkState (clock s
            + Z.of_nat (fst (upstream env (trace s) (mkRequest meth ep body))))
           (trace s ++ [EvRequest (mkRequest meth ep body)])
           (drawn s) (self s)).
Proof.
  unfold _request, answer.
  destruct (upstream env (trace s) (mkRequest meth ep body)) as [lat o].
  simpl. destruct (decode o); reflexivity.
Qed.

Lemma bind_ok {A B} (m : M A) (k : A -> M B) env s a s1 :
  m env s = (Ok a, s1) -> bind m k env s = k a env s1.
Proof. intros H. unfold bind. now rewrite H. Qed.

Lemma state_eta s : mkState (clock s) (trace s) (drawn s) (self s) = s.
Proof. destruct s; reflexivity. Qed.

Lemma unset_ids_raise env s :
  truthy (account_id (self s)) = false \/ truthy (mailbox_id (self s)) = false ->
  get_latest_message env s = (Err config_error, s).
Proof.
  intros H. unfold get_latest_message, bind, get_self.
  destruct H as [H | H]; rewrite H; simpl.
  - reflexivity.
  - rewrite orb_true_r. reflexivity.
Qed.

Lemma wait_loop_enter fuel start timeout interval env s :
  clock s - start < timeout ->
  wait_loop (S fuel) start timeout interval env s =
  match get_latest_message env s with
  | (Ok message, s1) =>
      if truthy message then (Ok message, s1)
      else (sleep interval ;; wait_loop fuel start timeout interval) env s1
  | (Err e, s1) => (Err e, s1)
  | (OutOfFuel, s1) => (OutOfFuel, s1)
  end.
Proof.
  intros H. simpl. unfold bind at 1. unfold loop_time.
  apply Z.ltb_lt in H. rewrite H. unfold bind at 1.
  destruct (get_latest_message env s) as [[m | e |] s1]; try reflexivity.
  destruct (truthy m); reflexivity.
Qed.

Lemma wait_loop_exit fuel start timeout interval env s :
  timeout <= clock s - start ->
  wait_loop (S fuel) start timeout interval env s =
  (Err (timeout_error timeout), s).
Proof.
  intros H. simpl. unfold bind, loop_time.
  apply Z.ltb_ge in H. rewrite H. reflexivity.
Qed.

(* ================================================================== *)
(** ** Polling: [get_latest_message] and [wait_for_message] *)
(* ================================================================== *)

(** C10. For every timeout that is not positive, [wait_for_message] raises
    [MessageTimeoutError] at once: the state is left as it was, so no fetch
    and no sleep took place, whatever the mailbox holds. *)
Theorem wait_for_message_nonpositive_timeout :
  forall env fuel timeout interval s,
    timeout <= 0 ->
    wait_for_message (S fuel) timeout interval env s =
    (Err (timeout_error timeout), s).
Proof.
  intros env fuel timeout interval s H.
  unfold wait_for_message, bind, loop_time.
  apply wait_loop_exit. lia.
Qed.

Lemma wait_for_message_nonpositive_timeout_witness :
  0 <= 0 /\
  answer (Stub.env_of Stub.has_mail Stub.count_up) []
         (fetch_request (JStr "acc1") (JStr "mb1"))
  = inr (JArr [Stub.message]) /\
  wait_for_message 1 0 5 (Stub.env_of Stub.has_mail Stub.count_up) Stub.ready
  = (Err (timeout_error 0), Stub.ready).
Proof.
  split; [lia | split; [reflexivity |]].
  apply (wait_for_message_nonpositive_timeout
           (Stub.env_of Stub.has_mail Stub.count_up) 0 0 5 Stub.ready).
  lia.
Defined.

(** C8, as the code has it. With the account or the mailbox identifier
    unset (or otherwise false), [get_latest_message] raises the
    configuration error, a [MailTmError], and leaves the state as it was:
    no request is made. [wait_for_message] raises the same error in the
    same way whenever its timeout is positive, that is, whenever it fetches
    at all. *)
Theorem unset_identifiers_fail_before_any_request :
  forall env s,
    truthy (account_id (self s)) = false \/
    truthy (mailbox_id (self s)) = false ->
    get_latest_message env s = (Err config_error, s) /\
    is_MailTmError config_error = true /\
    forall fuel timeout interval,
      0 < timeout ->
      wait_for_message (S fuel) timeout interval env s
      = (Err config_error, s).
Proof.
  intros env s H. split; [now apply unset_ids_raise | split; [reflexivity |]].
  intros fuel timeout interval Ht.
  unfold wait_for_message, bind at 1, loop_time.
  rewrite wait_loop_enter by lia.
  rewrite unset_ids_raise by exact H. reflexivity.
Qed.

Lemma unset_identifiers_fail_before_any_request_witness :
  get_latest_message (Stub.env_of Stub.has_mail Stub.count_up) Stub.unset
  = (Err config_error, Stub.unset) /\
  wait_for_message 1 60 5 (Stub.env_of Stub.has_mail Stub.count_up) Stub.unset
  = (Err config_error, Stub.unset).
Proof.
  destruct (unset_identifiers_fail_before_any_request
              (Stub.env_of Stub.has_mail Stub.count_up) Stub.unset
              (or_introl eq_refl)) as [Hget [_ Hwait]].
  split; [exact Hget | apply (Hwait 0%nat 60 5); lia].
Defined.

(** C8, as the claim has it, fails: with the account identifier unset and a
    timeout of zero, [wait_for_message] raises [MessageTimeoutError], not
    the configuration error. *)
Lemma unset_identifiers_zero_timeout :
  wait_for_message 1 0 5 (Stub.env_of Stub.has_mail Stub.count_up) Stub.unset
  = (Err (MessageTimeoutError "在 0 秒內未收到任何郵件。"), Stub.unset)
  /\ MessageTimeoutError "在 0 秒內未收到任何郵件。" <> config_error.
Proof. split; [reflexivity | discriminate]. Qed.

(** C4. When the loop is entered (the timeout is positive) and the first
    fetch yields a message, [wait_for_message] returns that message in the
    state the fetch left: one request was made, nothing was slept. *)
Theorem wait_for_message_first_fetch :
  forall env fuel timeout interval s message s1,
    0 < timeout ->
    get_latest_message env s = (Ok message, s1) ->
    truthy message = true ->
    wait_for_message (S fuel) timeout interval env s = (Ok message, s1) /\
    trace s1 =
    (trace s ++ [EvRequest (fetch_request (account_id (self s))
                                          (mailbox_id (self s)))])%list /\
    sleeps (trace s1) = sleeps (trace s).
Proof.
  intros env fuel timeout interval s message s1 Ht Hget Hm.
  split.
  - unfold wait_for_message, bind at 1, loop_time.
    rewrite wait_loop_enter by lia. rewrite Hget, Hm. reflexivity.
  - revert Hget. unfold get_latest_message, bind at 1, get_self.
    destruct (negb (truthy (account_id (self s)))
              || negb (truthy (mailbox_id (self s)))); [discriminate |].
    unfold bind at 1. rewrite request_run.
    set (s2 := mkState _ _ _ _).
    assert (Htr : trace s2 =
                  (trace s ++ [EvRequest (fetch_request (account_id (self s))
                                            (mailbox_id (self s)))])%list)
      by reflexivity.
    clearbody s2. intros Hget.
    assert (Hs1 : s1 = s2).
    { revert Hget.
      destruct (answer _ _ _) as [e | messages]; [discriminate |].
      destruct (truthy messages).
      - unfold bind, lift, raise, ret.
        destruct (getitem_0 messages) as [e | latest]; [discriminate |].
        destruct (dict_get latest "intro"); [discriminate |].
        now inversion 1.
      - unfold ret. now inversion 1. }
    subst s1. rewrite Htr. split; [reflexivity |].
    unfold sleeps. rewrite flat_map_app. simpl. now rewrite app_nil_r.
Qed.

Lemma wait_for_message_first_fetch_witness :
  wait_for_message 1 60 5 (Stub.env_of Stub.has_mail Stub.count_up) Stub.ready
  = (Ok Stub.message,
     mkState 0 [EvRequest (fetch_request (JStr "acc1") (JStr "mb1"))] 0
             (self Stub.ready)).
Proof.
  apply (wait_for_message_first_fetch
           (Stub.env_of Stub.has_mail Stub.count_up) 0 60 5 Stub.ready
           Stub.message); [lia | reflexivity | reflexivity].
Defined.

Lemma empty_fetch env s :
  truthy (account_id (self s)) = true ->
  truthy (mailbox_id (self s)) = true ->
  fst (upstream env (trace s)
         (fetch_request (account_id (self s)) (mailbox_id (self s)))) = O ->
  answer env (trace s)
         (fetch_request (account_id (self s)) (mailbox_id (self s)))
  = inr (JArr []) ->
  get_latest_message env s =
  (Ok JNull,
   mkState (clock s)
           (trace s ++ [EvRequest (fetch_request (account_id (self s))
                                                 (mailbox_id (self s)))])
           (drawn s) (self s)).
Proof.
  intros Ha Hm Hlat Hans.
  unfold get_latest_message, bind at 1, get_self.
  rewrite Ha, Hm. simpl. unfold bind. rewrite request_run.
  unfold fetch_request in Hlat, Hans. rewrite Hans, Hlat. simpl.
  unfold ret. now rewrite Z.add_0_r.
Qed.

(** The loop against a mailbox that stays empty: with enough fuel it ends in
    the timeout error, at an elapsed time within one interval past the
    timeout. *)
Lemma wait_loop_empty env account mailbox start timeout interval :
  0 < interval ->
  truthy account = true ->
  truthy mailbox = true ->
  (forall h, fst (upstream env h (fetch_request account mailbox)) = O) ->
  (forall h, answer env h (fetch_request account mailbox) = inr (JArr [])) ->
  forall fuel s,
    account_id (self s) = account ->
    mailbox_id (self s) = mailbox ->
    clock s - start < timeout + interval ->
    (Z.to_nat (timeout - (clock s - start)) < fuel)%nat ->
    exists s',
      wait_loop fuel start timeout interval env s
      = (Err (timeout_error timeout), s') /\
      timeout <= clock s' - start < timeout + interval.
Proof.
  intros Hi Ha Hm Hlat Hans.
  induction fuel as [| fuel IH]; intros s Hsa Hsm Hinv Hfuel; [lia |].
  destruct (Z_lt_ge_dec (clock s - start) timeout) as [Hlt | Hge].
  - rewrite wait_loop_enter by exact Hlt.
    rewrite empty_fetch;
      try rewrite Hsa; try rewrite Hsm; auto.
    cbn [truthy]. unfold bind at 1, sleep.
    apply IH; cbn [self clock]; try assumption.
    + rewrite Z.max_r by lia. lia.
    + rewrite Z.max_r by lia. lia.
  - rewrite wait_loop_exit by lia.
    exists s. split; [reflexivity | lia].
Qed.

(** With an interval that is not positive the clock never moves: against
    a mailbox that stays empty the loop, once entered, does not end. *)
Lemma wait_loop_stuck env account mailbox start timeout interval :
  interval <= 0 ->
  truthy account = true ->
  truthy mailbox = true ->
  (forall h, fst (upstream env h (fetch_request account mailbox)) = O) ->
  (forall h, answer env h (fetch_request account mailbox) = inr (JArr [])) ->
  forall fuel s,
    account_id (self s) = account ->
    mailbox_id (self s) = mailbox ->
    clock s - start < timeout ->
    fst (wait_loop fuel start timeout interval env s) = OutOfFuel.
Proof.
  intros Hi Ha Hm Hlat Hans.
  induction fuel as [| fuel IH]; intros s Hsa Hsm Hlt; [reflexivity |].
  rewrite wait_loop_enter by exact Hlt.
  rewrite empty_fetch; try rewrite Hsa; try rewrite Hsm; auto.
  cbn [truthy]. unfold bind at 1, sleep.
  apply IH; cbn [self clock]; try assumption.
  rewrite Z.max_l by lia. lia.
Qed.

(** More fuel does not change a run that ended. *)
Lemma wait_loop_fuel_mono env start timeout interval :
  forall f1 f2 s r s',
    wait_loop f1 start timeout interval env s = (r, s') ->
    r <> OutOfFuel ->
    (f1 <= f2)%nat ->
    wait_loop f2 start timeout interval env s = (r, s').
Proof.
  induction f1 as [| f1 IH]; intros f2 s r s' Hrun Hr Hle.
  - simpl in Hrun. inversion Hrun. congruence.
  - destruct f2 as [| f2]; [lia |].
    destruct (Z_lt_ge_dec (clock s - start) timeout) as [Hlt | Hge].
    + rewrite wait_loop_enter in Hrun |- * by exact Hlt.
      destruct (get_latest_message env s) as [[m | e |] s1];
        try exact Hrun.
      destruct (truthy m); [exact Hrun |].
      revert Hrun. unfold bind, sleep.
      intros Hrun. apply IH; [exact Hrun | exact Hr | lia].
    + rewrite wait_loop_exit in Hrun |- * by lia. exact Hrun.
Qed.

(** C3, as the code has it. For a timeout that is not negative and a
    positive interval, against a gateway that answers every fetch at once
    with the empty list, [wait_for_message] raises [MessageTimeoutError]
    (for every amount of fuel above the timeout), and the clock has then
    advanced by at least the timeout and by less than the timeout plus one
    interval. *)
Theorem wait_for_message_times_out :
  forall env timeout interval s,
    0 <= timeout ->
    0 < interval ->
    truthy (account_id (self s)) = true ->
    truthy (mailbox_id (self s)) = true ->
    (forall h,
        fst (upstream env h (fetch_request (account_id (self s))
                                           (mailbox_id (self s)))) = O) ->
    (forall h,
        answer env h (fetch_request (account_id (self s))
                                    (mailbox_id (self s)))
        = inr (JArr [])) ->
    exists s',
      (forall fuel,
          (Z.to_nat timeout < fuel)%nat ->
          wait_for_message fuel timeout interval env s
          = (Err (timeout_error timeout), s')) /\
      timeout <= clock s' - clock s < timeout + interval.
Proof.
  intros env timeout interval s Ht Hi Ha Hm Hlat Hans.
  destruct (wait_loop_empty env _ _ (clock s) timeout interval
              Hi Ha Hm Hlat Hans (S (Z.to_nat timeout)) s
              eq_refl eq_refl) as [s' [Hrun Hbound]];
    [lia | rewrite Z.sub_diag, Z.sub_0_r; lia |].
  exists s'. split; [| exact Hbound].
  intros fuel Hfuel.
  unfold wait_for_message, bind, loop_time.
  apply (wait_loop_fuel_mono env _ _ _ _ _ _ _ _ Hrun);
    [discriminate | lia].
Qed.

Lemma wait_for_message_times_out_witness :
  exists s',
    wait_for_message 20 12 5 (Stub.env_of Stub.empty_mailbox Stub.count_up)
                     Stub.ready
    = (Err (timeout_error 12), s') /\
    12 <= clock s' - clock Stub.ready < 12 + 5.
Proof.
  destruct (wait_for_message_times_out
              (Stub.env_of Stub.empty_mailbox Stub.count_up) 12 5 Stub.ready)
    as [s' [Hrun Hbound]];
    [lia | lia | reflexivity | reflexivity
     | intros h; reflexivity | intros h; reflexivity |].
  exists s'. split; [apply Hrun; simpl; lia | exact Hbound].
Defined.

(** C3, as the claim has it, fails. For a negative timeout the error is
    raised at once, after zero seconds, which is not within
    [timeout, timeout + interval). For an interval of zero the error is
    never raised: the run is out of fuel whatever the fuel. *)
Lemma wait_for_message_outside_the_range :
  (wait_for_message 1 (-5) 1 (Stub.env_of Stub.empty_mailbox Stub.count_up)
                    Stub.ready
   = (Err (MessageTimeoutError "在 -5 秒內未收到任何郵件。"), Stub.ready)
   /\ ~ (-5 <= clock Stub.ready - clock Stub.ready < -5 + 1))
  /\ (forall fuel,
         fst (wait_for_message fuel 1 0
                (Stub.env_of Stub.empty_mailbox Stub.count_up) Stub.ready)
         = OutOfFuel).
Proof.
  split; [split; [reflexivity | simpl; lia] |].
  intros fuel. unfold wait_for_message, bind, loop_time.
  apply (wait_loop_stuck (Stub.env_of Stub.empty_mailbox Stub.count_up)
           (JStr "acc1") (JStr "mb1"));
    try reflexivity; try lia; intros h; reflexivity.
Qed.

(** C9. A [delete_account] that returns, on a client whose account
    identifier is set, made one request, the DELETE of that account, and
    left the client with [account_id] and [address] at [None], its mailbox
    identifier and password as they were. *)
Theorem delete_account_clears_account :
  forall env s s',
    truthy (account_id (self s)) = true ->
    delete_account env s = (Ok tt, s') ->
    trace s' =
    (trace s ++ [EvRequest (delete_request (account_id (self s)))])%list /\
    account_id (self s') = JNull /\
    address (self s') = None /\
    mailbox_id (self s') = mailbox_id (self s) /\
    password (self s') = password (self s).
Proof.
  intros env s s' Hset.
  unfold delete_account, bind at 1, get_self. rewrite Hset. simpl.
  unfold bind at 1. rewrite request_run.
  destruct (answer _ _ _) as [e | j]; [discriminate |].
  unfold bind, get_self, put_self. simpl.
  inversion 1; subst. simpl. repeat split; reflexivity.
Qed.

Lemma delete_account_clears_account_witness :
  trace (snd (delete_account (Stub.env_of Stub.has_mail Stub.count_up)
                             Stub.ready))
  = [EvRequest (delete_request (JStr "acc1"))] /\
  account_id (self (snd (delete_account
                           (Stub.env_of Stub.has_mail Stub.count_up)
                           Stub.ready))) = JNull.
Proof.
  destruct (delete_account_clears_account
              (Stub.env_of Stub.has_mail Stub.count_up) Stub.ready
              (snd (delete_account (Stub.env_of Stub.has_mail Stub.count_up)
                                   Stub.ready))
              eq_refl eq_refl) as [Htr [Hacc _]].
  split; [exact Htr | exact Hacc].
Defined.

(* ================================================================== *)
(** ** Account creation: one attempt *)
(* ================================================================== *)

Lemma letters_alnum i :
  (i < 36)%nat ->
  exists c, String.get i letters = Some c /\ is_lower_alnum c = true.
Proof.
  intros H.
  do 36 (destruct i as [| i]; [eexists; split; reflexivity |]).
  lia.
Qed.

Lemma letter_spec env k :
  String.get (Nat.modulo (rand env k) 36) letters = Some (letter env k) /\
  is_lower_alnum (letter env k) = true.
Proof.
  unfold letter.
  destruct (letters_alnum (Nat.modulo (rand env k) 36)) as [c [Hc Hal]].
  - apply Nat.mod_upper_bound. discriminate.
  - rewrite Hc. now split.
Qed.

Lemma random_choice_run env s :
  random_choice letters env s =
  (Ok (letter env (drawn s)),
   mkState (clock s) (trace s) (S (drawn s)) (self s)).
Proof.
  unfold random_choice.
  change (String.length letters) with 36%nat.
  now rewrite (proj1 (letter_spec env (drawn s))).
Qed.

Lemma generate_random_username_run env n :
  forall s,
    generate_random_username n env s =
    (Ok (username_at env (drawn s) n),
     mkState (clock s) (trace s) (drawn s + n) (self s)).
Proof.
  induction n as [| n IH]; intros s.
  - simpl. unfold ret. now rewrite Nat.add_0_r, state_eta.
  - simpl. unfold bind at 1. rewrite random_choice_run.
    unfold bind at 1. rewrite IH. unfold ret. cbn [drawn clock trace self].
    now rewrite Nat.add_succ_r.
Qed.

Lemma username_at_length env n : forall pos,
  String.length (username_at env pos n) = n.
Proof. induction n; intros pos; simpl; [reflexivity | now rewrite IHn]. Qed.

Lemma strip_local_username env rest n : forall pos,
  strip_local n (username_at env pos n ++ rest) = Some rest.
Proof.
  induction n as [| n IH]; intros pos; simpl; [reflexivity |].
  rewrite (proj2 (letter_spec env pos)). apply IH.
Qed.

Lemma address_at_matches env domain pos :
  address_matches domain (address_at env domain pos) = true.
Proof.
  unfold address_matches, address_at.
  rewrite strip_local_username. simpl. apply String.eqb_refl.
Qed.

(** One attempt, case by case. *)
Lemma create_attempt_run env domain pw s :
  create_attempt domain pw env s =
  let addr := address_at env domain (drawn s) in
  let s1 := sent env domain pw s in
  match answer env (trace s) (creation_request addr pw) with
  | inl e => (Err e, s1)
  | inr account_data =>
      match getitem account_data "id" with
      | inl e => (Err e, s1)
      | inr id =>
          let c := mkClient (api_key (self s)) (Some addr) (Some pw) id
                            (mailbox_id (self s)) in
          match inbox_of account_data with
          | inl e => (Err e, with_self s1 c)
          | inr None => (Err no_inbox_error, with_self s1 c)
          | inr (Some inbox) =>
              if negb (truthy inbox)
              then (Err no_inbox_error, with_self s1 c)
              else
                match getitem inbox "id" with
                | inl e => (Err e, with_self s1 c)
                | inr mid =>
                    (Ok tt,
                     with_self s1 (mkClient (api_key (self s)) (Some addr)
                                            (Some pw) id mid))
                end
          end
      end
  end.
Proof.
  unfold create_attempt. unfold bind at 1.
  rewrite generate_random_username_run.
  unfold bind at 1, _create_account. rewrite request_run.
  cbv zeta. cbn [clock trace drawn self].
  fold (address_at env domain (drawn s)).
  fold (creation_request (address_at env domain (drawn s)) pw).
  fold (sent env domain pw s).
  destruct (answer env (trace s) _) as [e | account_data]; [reflexivity |].
  unfold bind at 1, lift at 1.
  destruct (getitem account_data "id") as [e | id];
    [reflexivity |].
  unfold ret at 1, bind at 1, get_self at 1, bind at 1, put_self at 1.
  unfold inbox_of, bind at 1, lift at 1.
  destruct (dict_get_default account_data "mailboxes" (JArr []))
    as [e | mailboxes]; [reflexivity |].
  unfold ret at 1, bind at 1, lift at 1.
  destruct (iterate mailboxes) as [e | elements]; [reflexivity |].
  unfold ret at 1, bind at 1, lift at 1.
  destruct (find_inbox elements) as [e | [inbox |]]; try reflexivity.
  unfold ret at 1.
  destruct (negb (truthy inbox)); [reflexivity |].
  unfold bind at 1, lift at 1.
  destruct (getitem inbox "id") as [e | mid]; reflexivity.
Qed.

(* ================================================================== *)
(** ** Account creation: the retry loop *)
(* ================================================================== *)

Lemma create_loop_step env domain pw max_retries rest attempt s :
  create_loop domain pw max_retries (S rest) attempt env s =
  match create_attempt domain pw env s with
  | (Ok _, s1) => (Ok tt, s1)
  | (Err e, s1) =>
      if is_MailTmError e then
        if attempt <? max_retries - 1
        then create_loop domain pw max_retries rest (attempt + 1) env
                         (slept s1)
        else (Err (AccountCreationError
                     ("創建帳號失敗，已達最大重試次數: " ++ exn_str e)
                     (Some e)), s1)
      else (Err e, s1)
  | (OutOfFuel, s1) => (OutOfFuel, s1)
  end.
Proof.
  cbn [create_loop]. unfold bind at 1, try_except, bind at 1.
  destruct (create_attempt domain pw env s) as [[[] | e |] s1];
    try reflexivity.
  cbn [handle].
  destruct (is_MailTmError e); [| reflexivity].
  destruct (attempt <? max_retries - 1); reflexivity.
Qed.

Lemma retry_trace_succ env domain pw pos n :
  retry_trace env domain pw pos (S (S n)) =
  EvRequest (creation_request (address_at env domain pos) pw)
  :: EvSleep 3 :: retry_trace env domain pw (pos + 10) (S n).
Proof. reflexivity. Qed.

Lemma retry_trace_calls env domain pw n : forall pos,
  creation_calls (retry_trace env domain pw pos n) = n.
Proof.
  induction n as [| [| n] IH]; intros pos; [reflexivity | reflexivity |].
  rewrite retry_trace_succ. unfold creation_calls in *.
  specialize (IH (pos + 10)%nat).
  remember (retry_trace env domain pw (pos + 10) (S n)) as t.
  simpl. now rewrite IH.
Qed.

Lemma retry_trace_sleeps env domain pw n : forall pos,
  sleeps (retry_trace env domain pw pos n) = repeat 3 (n - 1).
Proof.
  induction n as [| [| n] IH]; intros pos; [reflexivity | reflexivity |].
  rewrite retry_trace_succ. unfold sleeps in *.
  specialize (IH (pos + 10)%nat).
  remember (retry_trace env domain pw (pos + 10) (S n)) as t.
  simpl. rewrite IH. simpl. now rewrite Nat.sub_0_r.
Qed.

(** A run of attempts that all raise some [MailTmError] satisfying [P]:
    the loop gives up after the last of them, with the events of
    [retry_trace]. *)
Lemma create_loop_exhausts env domain pw max_retries (P : Exn -> Prop) :
  (forall e, P e -> is_MailTmError e = true) ->
  (forall s, exists e c,
      create_attempt domain pw env s
      = (Err e, with_self (sent env domain pw s) c) /\ P e) ->
  forall remaining attempt s,
    attempt + Z.of_nat (S remaining) = max_retries ->
    exists cause s',
      create_loop domain pw max_retries (S remaining) attempt env s =
      (Err (AccountCreationError
              ("創建帳號失敗，已達最大重試次數: " ++ exn_str cause)
              (Some cause)), s') /\
      P cause /\
      trace s' =
      (trace s ++ retry_trace env domain pw (drawn s) (S remaining))%list.
Proof.
  intros HP Hfail.
  induction remaining as [| remaining IH]; intros attempt s Hsum.
  - destruct (Hfail s) as [e [c [Hrun He]]].
    rewrite create_loop_step, Hrun, (HP e He).
    assert (Hlast : (attempt <? max_retries - 1) = false)
      by (apply Z.ltb_ge; lia).
    rewrite Hlast. exists e. eexists. split; [reflexivity |].
    split; [exact He | reflexivity].
  - destruct (Hfail s) as [e [c [Hrun He]]].
    rewrite create_loop_step, Hrun, (HP e He).
    assert (Hmore : (attempt <? max_retries - 1) = true)
      by (apply Z.ltb_lt; lia).
    rewrite Hmore.
    destruct (IH (attempt + 1)
                 (slept (with_self (sent env domain pw s) c)))
      as [cause [s' [Hloop [Hcause Htrace]]]]; [lia |].
    exists cause, s'. split; [exact Hloop | split; [exact Hcause |]].
    rewrite Htrace. cbn [slept with_self sent trace drawn].
    rewrite retry_trace_succ. rewrite <- !app_assoc. reflexivity.
Qed.

(** A loop that returned did so out of an attempt that returned. *)
Lemma create_loop_returns env domain pw max_retries :
  forall remaining attempt s s',
    create_loop domain pw max_retries remaining attempt env s = (Ok tt, s') ->
    exists s0, create_attempt domain pw env s0 = (Ok tt, s').
Proof.
  induction remaining as [| remaining IH]; intros attempt s s' Hrun.
  - discriminate.
  - rewrite create_loop_step in Hrun.
    destruct (create_attempt domain pw env s) as [[[] | e |] s1] eqn:Hatt.
    + inversion Hrun; subst. now exists s.
    + destruct (is_MailTmError e); [| discriminate].
      destruct (attempt <? max_retries - 1); [| discriminate].
      now apply IH in Hrun.
    + discriminate.
Qed.

Lemma MailTmClient_run env key s :
  key <> "" ->
  MailTmClient key env s =
  (Ok tt, with_self s (mkClient key None None JNull JNull)).
Proof.
  intros Hkey. unfold MailTmClient.
  destruct (String.eqb key "") eqn:E; [| reflexivity].
  apply String.eqb_eq in E. contradiction.
Qed.

Lemma gateway_fails_decode o :
  gateway_fails o = true -> exists msg, decode o = inl (MailTmError msg).
Proof.
  destruct o as [detail | status text body]; simpl.
  - intros _. eexists. reflexivity.
  - intros H. rewrite H. eexists. reflexivity.
Qed.

(** C1. With at least one attempt allowed and a gateway whose every
    creation call fails, [create_new_account] raises
    [AccountCreationError], caused by the last failure; the creation call
    was made exactly [max_retries] times, with one three-second sleep
    between two consecutive calls and none after the last. *)
Theorem create_new_account_exhausts_retries :
  forall env key domain pw max_retries s,
    key <> "" ->
    1 <= max_retries ->
    (forall h r,
        is_creation (EvRequest r) = true ->
        gateway_fails (snd (upstream env h r)) = true) ->
    exists msg cause s',
      create_new_account key domain pw max_retries env s
      = (Err (AccountCreationError msg (Some cause)), s') /\
      is_MailTmError cause = true /\
      trace s' =
      (trace s
       ++ retry_trace env domain pw (drawn s) (Z.to_nat max_retries))%list /\
      creation_calls
        (retry_trace env domain pw (drawn s) (Z.to_nat max_retries))
      = Z.to_nat max_retries /\
      sleeps (retry_trace env domain pw (drawn s) (Z.to_nat max_retries))
      = repeat 3 (Z.to_nat max_retries - 1).
Proof.
  intros env key domain pw max_retries s Hkey Hmax Hdown.
  assert (Hfail : forall s0, exists e c,
             create_attempt domain pw env s0
             = (Err e, with_self (sent env domain pw s0) c)
             /\ is_MailTmError e = true).
  { intros s0. rewrite create_attempt_run. cbv zeta. unfold answer.
    destruct (gateway_fails_decode
                (snd (upstream env (trace s0)
                        (creation_request
                           (address_at env domain (drawn s0)) pw))))
      as [msg Hmsg]; [now apply Hdown |].
    rewrite Hmsg. exists (MailTmError msg), (self s0).
    split; [| reflexivity].
    unfold with_self, sent. reflexivity. }
  destruct (Z.to_nat max_retries) as [| remaining] eqn:Hn; [lia |].
  destruct (create_loop_exhausts env domain pw max_retries
              (fun e => is_MailTmError e = true) (fun e H => H) Hfail
              remaining 0
              (with_self s (mkClient key None None JNull JNull)))
    as [cause [s' [Hloop [Hcause Htrace]]]]; [lia |].
  eexists. exists cause, s'.
  split; [| split; [exact Hcause | split; [exact Htrace |]]].
  - unfold create_new_account, bind at 1.
    rewrite MailTmClient_run by exact Hkey.
    unfold bind at 1. rewrite Hn, Hloop. reflexivity.
  - split; [apply retry_trace_calls | apply retry_trace_sleeps].
Qed.

Lemma create_new_account_exhausts_retries_witness :
  exists msg cause s',
    create_new_account "key" "vvvcx.me" "thisispassword" 3
                       (Stub.env_of Stub.down Stub.count_up) Stub.fresh
    = (Err (AccountCreationError msg (Some cause)), s') /\
    creation_calls (trace s') = 3%nat /\
    sleeps (trace s') = [3; 3].
Proof.
  destruct (create_new_account_exhausts_retries
              (Stub.env_of Stub.down Stub.count_up)
              "key" "vvvcx.me" "thisispassword" 3 Stub.fresh)
    as [msg [cause [s' [Hrun [_ [Htrace [Hcalls Hsleeps]]]]]]];
    [discriminate | lia | intros h r _; reflexivity |].
  exists msg, cause, s'. split; [exact Hrun |].
  rewrite Htrace. split; [exact Hcalls | exact Hsleeps].
Defined.

(* ================================================================== *)
(** ** Account creation: what a returned client holds *)
(* ================================================================== *)

Lemma find_inbox_some mailboxes inbox :
  find_inbox mailboxes = inr (Some inbox) ->
  In inbox mailboxes /\ dict_get inbox "path" = inr (Some (JStr "INBOX")).
Proof.
  induction mailboxes as [| mb rest IH]; [discriminate |].
  cbn [find_inbox].
  destruct (dict_get mb "path") as [e | [[| | | | p | |] |]] eqn:Hpath;
    try discriminate;
    try (intros H; destruct (IH H) as [Hin Hp]; split;
         [now right | exact Hp]).
  destruct (String.eqb p "INBOX") eqn:Heq.
  - inversion 1; subst. apply String.eqb_eq in Heq. subst p.
    split; [now left | exact Hpath].
  - intros H; destruct (IH H) as [Hin Hp]; split; [now right | exact Hp].
Qed.

Lemma find_inbox_none mailboxes :
  (forall mb, In mb mailboxes ->
              exists fields, mb = JObj fields /\
                             lookup "path" fields <> Some (JStr "INBOX")) ->
  find_inbox mailboxes = inr None.
Proof.
  induction mailboxes as [| mb rest IH]; intros H; [reflexivity |].
  destruct (H mb (or_introl eq_refl)) as [fields [-> Hpath]].
  cbn [find_inbox dict_get].
  assert (Hrest : find_inbox rest = inr None)
    by (apply IH; intros mb' Hin; apply H; now right).
  destruct (lookup "path" fields) as [[| | | | p | |] |]; try exact Hrest.
  destruct (String.eqb p "INBOX") eqn:Heq; [| exact Hrest].
  apply String.eqb_eq in Heq. subst p. now contradiction Hpath.
Qed.

(** The lookup stops at the first entry whose path is ["INBOX"], whatever
    comes after it. *)
Lemma find_inbox_first before inbox after :
  (forall mb, In mb before ->
              exists fields, mb = JObj fields /\
                             lookup "path" fields <> Some (JStr "INBOX")) ->
  dict_get inbox "path" = inr (Some (JStr "INBOX")) ->
  find_inbox (before ++ inbox :: after) = inr (Some inbox).
Proof.
  intros Hbefore Hpath.
  induction before as [| mb before IH]; cbn [app find_inbox].
  - rewrite Hpath. now rewrite String.eqb_refl.
  - destruct (Hbefore mb (or_introl eq_refl)) as [fields [-> Hne]].
    assert (Hrest : find_inbox (before ++ inbox :: after) = inr (Some inbox))
      by (apply IH; intros mb' Hin; apply Hbefore; now right).
    cbn [dict_get].
    destruct (lookup "path" fields) as [[| | | | p | |] |]; try exact Hrest.
    destruct (String.eqb p "INBOX") eqn:Heq; [| exact Hrest].
    apply String.eqb_eq in Heq. subst p. now contradiction Hne.
Qed.

Lemma find_inbox_strings fields inbox :
  find_inbox (map (fun kv : string * json => JStr (fst kv)) fields)
  <> inr (Some inbox).
Proof. destruct fields; discriminate. Qed.

Lemma find_inbox_chars s inbox : find_inbox (chars s) <> inr (Some inbox).
Proof. destruct s; discriminate. Qed.

(** The inbox an attempt finds is an entry of the list under ["mailboxes"],
    and its path is ["INBOX"]. *)
Lemma inbox_of_some account_data inbox :
  inbox_of account_data = inr (Some inbox) ->
  exists mailboxes,
    dict_get account_data "mailboxes" = inr (Some (JArr mailboxes)) /\
    In inbox mailboxes /\
    dict_get inbox "path" = inr (Some (JStr "INBOX")).
Proof.
  unfold inbox_of, dict_get_default.
  destruct (dict_get account_data "mailboxes") as [e | [v |]];
    [discriminate | | discriminate].
  destruct v as [| b | z | q | str | items | fields]; try discriminate;
    cbn [iterate]; intros H.
  - now apply find_inbox_chars in H.
  - exists items. split; [reflexivity | now apply find_inbox_some].
  - now apply find_inbox_strings in H.
Qed.

Lemma create_attempt_returns env domain pw s s' :
  create_attempt domain pw env s = (Ok tt, s') ->
  exists account_data inbox,
    answer env (trace s)
           (creation_request (address_at env domain (drawn s)) pw)
    = inr account_data /\
    getitem account_data "id" = inr (account_id (self s')) /\
    inbox_of account_data = inr (Some inbox) /\
    getitem inbox "id" = inr (mailbox_id (self s')) /\
    address (self s') = Some (address_at env domain (drawn s)) /\
    password (self s') = Some pw /\
    trace s' =
    (trace s
     ++ [EvRequest (creation_request (address_at env domain (drawn s)) pw)])
    %list.
Proof.
  rewrite create_attempt_run. cbv zeta.
  destruct (answer env (trace s) _) as [e | account_data] eqn:Hans;
    [discriminate |].
  destruct (getitem account_data "id") as [e | id] eqn:Hid; [discriminate |].
  destruct (inbox_of account_data) as [e | [inbox |]] eqn:Hinbox;
    [discriminate | | discriminate].
  destruct (negb (truthy inbox)); [discriminate |].
  destruct (getitem inbox "id") as [e | mid] eqn:Hmid; [discriminate |].
  inversion 1; subst.
  exists account_data, inbox. cbn.
  repeat split; solve [assumption | reflexivity].
Qed.

(** What [create_new_account] returned is the client the last attempt
    built. *)
Lemma create_new_account_returns env key domain pw max_retries s c s' :
  create_new_account key domain pw max_retries env s = (Ok c, s') ->
  c = self s' /\ exists s0, create_attempt domain pw env s0 = (Ok tt, s').
Proof.
  unfold create_new_account, bind at 1.
  destruct (MailTmClient key env s) as [[[] | e |] s1]; try discriminate.
  unfold bind at 1.
  destruct (create_loop domain pw max_retries (Z.to_nat max_retries) 0
              env s1) as [[[] | e |] s2] eqn:Hloop; try discriminate.
  unfold get_self. inversion 1; subst.
  split; [reflexivity | now apply create_loop_returns in Hloop].
Qed.

Lemma lacks_inbox_none account_data :
  lacks_inbox account_data -> inbox_of account_data = inr None.
Proof.
  intros [mailboxes [[Hget | [Hget ->]] Hall]];
    unfold inbox_of, dict_get_default; rewrite Hget; cbn [iterate].
  - now apply find_inbox_none.
  - reflexivity.
Qed.

Lemma create_attempt_no_inbox env domain pw s account_data id :
  answer env (trace s)
         (creation_request (address_at env domain (drawn s)) pw)
  = inr account_data ->
  getitem account_data "id" = inr id ->
  inbox_of account_data = inr None ->
  exists c,
    create_attempt domain pw env s
    = (Err no_inbox_error, with_self (sent env domain pw s) c).
Proof.
  intros Hans Hid Hinbox. rewrite create_attempt_run. cbv zeta.
  rewrite Hans, Hid, Hinbox. eexists. reflexivity.
Qed.

(** C5, as the code has it. (1) The mailbox identifier of a client that
    [create_new_account] returned is the ["id"] of an entry of the mailbox
    list in the provider's answer to the last creation call, an entry whose
    path is ["INBOX"]. (2) When the first answer carries an id and a mailbox
    list in which an entry with path ["INBOX"] comes after objects with
    other paths only, [create_new_account] returns a client whose mailbox
    identifier is the ["id"] of that entry, whatever follows it. (3) An
    attempt whose account data carries an id and a mailbox list (possibly
    absent) of objects none of which has the path ["INBOX"] raises the
    no-inbox error, a [MailTmError]. (4) That failure is retried like a
    gateway failure: if every creation call is answered with such an
    account, [create_new_account] raises [AccountCreationError], caused by
    the no-inbox error, after the events of [max_retries] spaced
    attempts. *)
Theorem mailbox_id_is_the_inbox :
  forall env domain pw,
    (forall key max_retries s c s',
        create_new_account key domain pw max_retries env s = (Ok c, s') ->
        exists h r account_data mailboxes inbox,
          trace s' = (h ++ [EvRequest r])%list /\
          is_creation (EvRequest r) = true /\
          answer env h r = inr account_data /\
          dict_get account_data "mailboxes" = inr (Some (JArr mailboxes)) /\
          In inbox mailboxes /\
          dict_get inbox "path" = inr (Some (JStr "INBOX")) /\
          getitem inbox "id" = inr (mailbox_id c)) /\
    (forall key max_retries s account_data id before inbox after mid,
        key <> "" ->
        1 <= max_retries ->
        answer env (trace s)
               (creation_request (address_at env domain (drawn s)) pw)
        = inr account_data ->
        getitem account_data "id" = inr id ->
        dict_get account_data "mailboxes"
        = inr (Some (JArr (before ++ inbox :: after))) ->
        (forall mb, In mb before ->
                    exists fields,
                      mb = JObj fields /\
                      lookup "path" fields <> Some (JStr "INBOX")) ->
        dict_get inbox "path" = inr (Some (JStr "INBOX")) ->
        getitem inbox "id" = inr mid ->
        exists s',
          create_new_account key domain pw max_retries env s
          = (Ok (mkClient key (Some (address_at env domain (drawn s)))
                          (Some pw) id mid), s')) /\
    (forall s account_data id,
        answer env (trace s)
               (creation_request (address_at env domain (drawn s)) pw)
        = inr account_data ->
        getitem account_data "id" = inr id ->
        lacks_inbox account_data ->
        is_MailTmError no_inbox_error = true /\
        exists s1,
          create_attempt domain pw env s = (Err no_inbox_error, s1)) /\
    (forall key max_retries s,
        key <> "" ->
        1 <= max_retries ->
        (forall h r,
            is_creation (EvRequest r) = true ->
            exists account_data id,
              answer env h r = inr account_data /\
              getitem account_data "id" = inr id /\
              lacks_inbox account_data) ->
        exists msg s',
          create_new_account key domain pw max_retries env s
          = (Err (AccountCreationError msg (Some no_inbox_error)), s') /\
          trace s' =
          (trace s
           ++ retry_trace env domain pw (drawn s) (Z.to_nat max_retries))
          %list).
Proof.
  intros env domain pw. split; [| split; [| split]].
  - intros key max_retries s c s' Hrun.
    apply create_new_account_returns in Hrun.
    destruct Hrun as [-> [s0 Hatt]].
    apply create_attempt_returns in Hatt.
    destruct Hatt as [account_data [inbox
                       [Hans [_ [Hinbox [Hmid [_ [_ Htrace]]]]]]]].
    apply inbox_of_some in Hinbox.
    destruct Hinbox as [mailboxes [Hget [Hin Hpath]]].
    exists (trace s0),
           (creation_request (address_at env domain (drawn s0)) pw),
           account_data, mailboxes, inbox.
    repeat split; assumption || reflexivity.
  - intros key max_retries s account_data id before inbox after mid
           Hkey Hmax Hans Hid Hget Hbefore Hpath Hmid.
    assert (Hinbox : inbox_of account_data = inr (Some inbox)).
    { unfold inbox_of, dict_get_default. rewrite Hget. cbn [iterate].
      now apply find_inbox_first. }
    assert (Htruthy : truthy inbox = true).
    { destruct inbox as [| | | | | | [| kv fields]]; try discriminate.
      reflexivity. }
    set (s0 := with_self s (mkClient key None None JNull JNull)).
    assert (Hatt : create_attempt domain pw env s0
                   = (Ok tt,
                      with_self (sent env domain pw s0)
                        (mkClient key
                                  (Some (address_at env domain (drawn s)))
                                  (Some pw) id mid))).
    { rewrite create_attempt_run. cbv zeta.
      change (trace s0) with (trace s). change (drawn s0) with (drawn s).
      rewrite Hans, Hid, Hinbox, Htruthy, Hmid. reflexivity. }
    eexists.
    unfold create_new_account, bind at 1.
    rewrite MailTmClient_run by exact Hkey. fold s0.
    destruct (Z.to_nat max_retries) as [| remaining] eqn:Hn; [lia |].
    unfold bind at 1. rewrite create_loop_step, Hatt.
    unfold get_self. reflexivity.
  - intros s account_data id Hans Hid Hlacks.
    split; [reflexivity |].
    destruct (create_attempt_no_inbox env domain pw s account_data id
                Hans Hid (lacks_inbox_none _ Hlacks)) as [c Hrun].
    eexists. exact Hrun.
  - intros key max_retries s Hkey Hmax Hall.
    assert (Hfail : forall s0, exists e c,
               create_attempt domain pw env s0
               = (Err e, with_self (sent env domain pw s0) c)
               /\ e = no_inbox_error).
    { intros s0.
      destruct (Hall (trace s0)
                     (creation_request (address_at env domain (drawn s0)) pw)
                     eq_refl) as [account_data [id [Hans [Hid Hlacks]]]].
      destruct (create_attempt_no_inbox env domain pw s0 account_data id
                  Hans Hid (lacks_inbox_none _ Hlacks)) as [c Hrun].
      exists no_inbox_error, c. split; [exact Hrun | reflexivity]. }
    assert (Hclass : forall e, e = no_inbox_error -> is_MailTmError e = true)
      by (now intros e ->).
    destruct (Z.to_nat max_retries) as [| remaining] eqn:Hn; [lia |].
    destruct (create_loop_exhausts env domain pw max_retries
                (fun e => e = no_inbox_error) Hclass
                Hfail remaining 0
                (with_self s (mkClient key None None JNull JNull)))
      as [cause [s' [Hloop [Hcause Htrace]]]]; [lia |].
    subst cause. eexists. exists s'. split; [| exact Htrace].
    unfold create_new_account, bind at 1.
    rewrite MailTmClient_run by exact Hkey.
    unfold bind at 1. rewrite Hn, Hloop. reflexivity.
Qed.

Lemma account_without_inbox_lacks_inbox :
  lacks_inbox Stub.account_without_inbox.
Proof.
  exists [JObj [("id", JStr "mbx0"); ("path", JStr "Trash")]].
  split; [left; reflexivity |].
  intros mb [<- | []]. eexists. split; [reflexivity | discriminate].
Defined.

Lemma mailbox_id_is_the_inbox_witness :
  (exists s',
      create_new_account "key" "vvvcx.me" "thisispassword" 3
        (Stub.env_of Stub.up Stub.count_up) Stub.fresh
      = (Ok (mkClient "key" (Some "abcdefghij@vvvcx.me")
                      (Some "thisispassword") (JStr "acc1") (JStr "mb1")),
         s') /\
      mailbox_id (mkClient "key" (Some "abcdefghij@vvvcx.me")
                           (Some "thisispassword") (JStr "acc1")
                           (JStr "mb1"))
      = JStr "mb1") /\
  (exists h r account_data mailboxes inbox,
      trace (snd (create_new_account "key" "vvvcx.me" "thisispassword" 3
                    (Stub.env_of Stub.fails_twice Stub.count_up) Stub.fresh))
      = (h ++ [EvRequest r])%list /\
      is_creation (EvRequest r) = true /\
      answer (Stub.env_of Stub.fails_twice Stub.count_up) h r
      = inr account_data /\
      dict_get account_data "mailboxes" = inr (Some (JArr mailboxes)) /\
      In inbox mailboxes /\
      dict_get inbox "path" = inr (Some (JStr "INBOX")) /\
      getitem inbox "id" = inr (JStr "mb1")) /\
  (exists s1,
      create_attempt "vvvcx.me" "thisispassword"
                     (Stub.env_of Stub.inboxless Stub.count_up) Stub.fresh
      = (Err no_inbox_error, s1)) /\
  (exists msg s',
      create_new_account "key" "vvvcx.me" "thisispassword" 2
                         (Stub.env_of Stub.inboxless Stub.count_up) Stub.fresh
      = (Err (AccountCreationError msg (Some no_inbox_error)), s') /\
      trace s' =
      retry_trace (Stub.env_of Stub.inboxless Stub.count_up)
                  "vvvcx.me" "thisispassword" 0 2).
Proof.
  split; [| split; [| split]].
  - assert (Hkey : "key" <> "") by discriminate.
    assert (Hmax : 1 <= 3) by lia.
    assert (Hbefore :
              forall mb,
                In mb [JObj [("id", JStr "mbx0"); ("path", JStr "Trash")]] ->
                exists fields,
                  mb = JObj fields /\
                  lookup "path" fields <> Some (JStr "INBOX")).
    { intros mb [<- | []]. eexists. split; [reflexivity | discriminate]. }
    destruct (proj1 (proj2 (mailbox_id_is_the_inbox
                              (Stub.env_of Stub.up Stub.count_up)
                              "vvvcx.me" "thisispassword"))
                    "key" 3 Stub.fresh (Stub.account "acc1" "mb1")
                    (JStr "acc1")
                    [JObj [("id", JStr "mbx0"); ("path", JStr "Trash")]]
                    (JObj [("id", JStr "mb1"); ("path", JStr "INBOX")])
                    [] (JStr "mb1")
                    Hkey Hmax eq_refl eq_refl eq_refl Hbefore eq_refl eq_refl)
      as [s' Hrun].
    exists s'. split; [exact Hrun | reflexivity].
  - assert (Hrun :
      create_new_account "key" "vvvcx.me" "thisispassword" 3
        (Stub.env_of Stub.fails_twice Stub.count_up) Stub.fresh
      = (Ok (mkClient "key" (Some "uvwxyz0123@vvvcx.me")
                      (Some "thisispassword") (JStr "acc1") (JStr "mb1")),
         snd (create_new_account "key" "vvvcx.me" "thisispassword" 3
                (Stub.env_of Stub.fails_twice Stub.count_up) Stub.fresh)))
      by (vm_compute; reflexivity).
    exact (proj1 (mailbox_id_is_the_inbox
                    (Stub.env_of Stub.fails_twice Stub.count_up)
                    "vvvcx.me" "thisispassword")
                 "key" 3 Stub.fresh _ _ Hrun).
  - apply (proj1 (proj2 (proj2 (mailbox_id_is_the_inbox
                           (Stub.env_of Stub.inboxless Stub.count_up)
                           "vvvcx.me" "thisispassword")))
                 Stub.fresh Stub.account_without_inbox (JStr "acc1")
                 eq_refl eq_refl account_without_inbox_lacks_inbox).
  - apply (proj2 (proj2 (proj2 (mailbox_id_is_the_inbox
                           (Stub.env_of Stub.inboxless Stub.count_up)
                           "vvvcx.me" "thisispassword")))
                 "key" 2 Stub.fresh); [discriminate | lia |].
    intros h r _. exists Stub.account_without_inbox, (JStr "acc1").
    split; [reflexivity | split; [reflexivity |]].
    exact account_without_inbox_lacks_inbox.
Defined.

(** C5, as the claim has it, fails: a mailbox list that holds [null] has no
    entry with the path ["INBOX"], yet the attempt does not fail with the
    no-inbox error and is not retried. Reading the path of the entry raises
    [AttributeError], which leaves [create_new_account] after the one
    creation call, with two attempts still allowed. *)
Lemma mailbox_list_with_null :
  fst (create_new_account "key" "vvvcx.me" "thisispassword" 3
         (Stub.env_of Stub.null_mailbox Stub.count_up) Stub.fresh)
  = Err (PyError AttributeError) /\
  creation_calls
    (trace (snd (create_new_account "key" "vvvcx.me" "thisispassword" 3
                   (Stub.env_of Stub.null_mailbox Stub.count_up)
                   Stub.fresh))) = 1%nat /\
  sleeps
    (trace (snd (create_new_account "key" "vvvcx.me" "thisispassword" 3
                   (Stub.env_of Stub.null_mailbox Stub.count_up)
                   Stub.fresh))) = [] /\
  dict_get Stub.account_with_null_mailbox "mailboxes"
  = inr (Some (JArr [JNull])) /\
  (forall mb, In mb [JNull] ->
              dict_get mb "path" <> inr (Some (JStr "INBOX"))) /\
  PyError AttributeError <> no_inbox_error.
Proof.
  split; [vm_compute; reflexivity |].
  split; [vm_compute; reflexivity |].
  split; [vm_compute; reflexivity |].
  split; [reflexivity |].
  split; [| discriminate].
  intros mb [<- | []]. discriminate.
Qed.

(** C2, as the code has it. The client a successful [create_new_account]
    returns has an address matching [^[a-z0-9]{10}@<domain>$], the address
    of the last creation call; its account identifier is the ["id"] of the
    account data the provider answered that call with, and its mailbox
    identifier the ["id"] of the inbox entry of that data. Nothing is
    checked about those two values. *)
Theorem created_account_fields :
  forall env key domain pw max_retries s c s',
    create_new_account key domain pw max_retries env s = (Ok c, s') ->
    exists addr h account_data inbox,
      address c = Some addr /\
      address_matches domain addr = true /\
      trace s' = (h ++ [EvRequest (creation_request addr pw)])%list /\
      answer env h (creation_request addr pw) = inr account_data /\
      getitem account_data "id" = inr (account_id c) /\
      inbox_of account_data = inr (Some inbox) /\
      getitem inbox "id" = inr (mailbox_id c).
Proof.
  intros env key domain pw max_retries s c s' Hrun.
  apply create_new_account_returns in Hrun.
  destruct Hrun as [-> [s0 Hatt]].
  apply create_attempt_returns in Hatt.
  destruct Hatt as [account_data [inbox
                     [Hans [Hid [Hinbox [Hmid [Haddr [_ Htrace]]]]]]]].
  exists (address_at env domain (drawn s0)), (trace s0), account_data, inbox.
  repeat split; try assumption.
  apply address_at_matches.
Qed.

Lemma created_account_fields_witness :
  exists addr,
    address (mkClient "key" (Some "uvwxyz0123@vvvcx.me")
                      (Some "thisispassword") (JStr "acc1") (JStr "mb1"))
    = Some addr /\
    address_matches "vvvcx.me" addr = true.
Proof.
  assert (Hrun :
    create_new_account "key" "vvvcx.me" "thisispassword" 3
      (Stub.env_of Stub.fails_twice Stub.count_up) Stub.fresh
    = (Ok (mkClient "key" (Some "uvwxyz0123@vvvcx.me")
                    (Some "thisispassword") (JStr "acc1") (JStr "mb1")),
       snd (create_new_account "key" "vvvcx.me" "thisispassword" 3
              (Stub.env_of Stub.fails_twice Stub.count_up) Stub.fresh)))
    by (vm_compute; reflexivity).
  destruct (created_account_fields
              (Stub.env_of Stub.fails_twice Stub.count_up)
              "key" "vvvcx.me" "thisispassword" 3 Stub.fresh _ _ Hrun)
    as [addr [h [account_data [inbox [Haddr [Hmatch _]]]]]].
  exists addr. split; [exact Haddr | exact Hmatch].
Defined.

(** C2, as the claim has it, fails: a provider that answers with empty
    identifiers gets them stored as they are. *)
Lemma created_account_empty_ids :
  fst (create_new_account "key" "vvvcx.me" "thisispassword" 3
         (Stub.env_of Stub.empty_ids Stub.count_up) Stub.fresh)
  = Ok (mkClient "key" (Some "abcdefghij@vvvcx.me") (Some "thisispassword")
                 (JStr "") (JStr "")).
Proof. vm_compute. reflexivity. Qed.

(* ================================================================== *)
(** ** Account creation: success on the third attempt *)
(* ================================================================== *)

Lemma creation_calls_app t ev :
  creation_calls (t ++ [ev]) =
  (creation_calls t + if is_creation ev then 1 else 0)%nat.
Proof.
  unfold creation_calls. rewrite filter_app, length_app. simpl.
  destruct (is_creation ev); reflexivity.
Qed.

Lemma create_attempt_gateway_fails env domain pw s :
  gateway_fails
    (snd (upstream env (trace s)
            (creation_request (address_at env domain (drawn s)) pw))) = true ->
  exists msg,
    create_attempt domain pw env s
    = (Err (MailTmError msg), sent env domain pw s).
Proof.
  intros H. apply gateway_fails_decode in H. destruct H as [msg Hmsg].
  rewrite create_attempt_run. cbv zeta. unfold answer. rewrite Hmsg.
  now exists msg.
Qed.

Lemma inbox_truthy account_data inbox :
  inbox_of account_data = inr (Some inbox) -> truthy inbox = true.
Proof.
  intros H. apply inbox_of_some in H. destruct H as [_ [_ [_ Hpath]]].
  destruct inbox as [| | | | | | [| kv fields]]; try discriminate.
  reflexivity.
Qed.

Lemma append_cancel_r r : forall u1 u2, u1 ++ r = u2 ++ r -> u1 = u2.
Proof.
  assert (Hlen : forall u, String.length (u ++ r)
                           = (String.length u + String.length r)%nat)
    by (induction u as [| c u IH]; simpl; [reflexivity | now rewrite IH]).
  induction u1 as [| c1 u1 IH]; intros [| c2 u2] H.
  - reflexivity.
  - apply (f_equal String.length) in H.
    rewrite (Hlen (String c2 u2)) in H. simpl in H. lia.
  - apply (f_equal String.length) in H.
    rewrite (Hlen (String c1 u1)) in H. simpl in H. lia.
  - simpl in H. injection H as Hc Hu. f_equal; [exact Hc | now apply IH].
Qed.

Lemma NoDup_map_injective {A B} (f : A -> B) (l : list A) :
  (forall x y, f x = f y -> x = y) -> NoDup l -> NoDup (map f l).
Proof.
  intros Hinj. induction 1 as [| x l Hx Hl IH]; simpl; constructor.
  - rewrite in_map_iff. intros [y [Hy Hin]]. apply Hinj in Hy. now subst.
  - exact IH.
Qed.

(** C6, as the code has it. With at least three attempts allowed, a gateway
    that fails the first two creation calls and answers the third with an
    account that carries an id and an inbox makes [create_new_account]
    return; the creation call was made exactly three times, three seconds
    apart, each time with an address built from ten new draws. The three
    addresses are pairwise distinct exactly when the three drawn usernames
    are. *)
Theorem create_new_account_third_attempt :
  forall env key domain pw max_retries s account_data id inbox mid,
    key <> "" ->
    3 <= max_retries ->
    creation_calls (trace s) = O ->
    (forall h r,
        is_creation (EvRequest r) = true ->
        (creation_calls h < 2)%nat ->
        gateway_fails (snd (upstream env h r)) = true) ->
    (forall h r,
        is_creation (EvRequest r) = true ->
        creation_calls h = 2%nat ->
        answer env h r = inr account_data) ->
    getitem account_data "id" = inr id ->
    inbox_of account_data = inr (Some inbox) ->
    getitem inbox "id" = inr mid ->
    let u0 := username_at env (drawn s) 10 in
    let u1 := username_at env (drawn s + 10) 10 in
    let u2 := username_at env (drawn s + 20) 10 in
    let a0 := address_at env domain (drawn s) in
    let a1 := address_at env domain (drawn s + 10) in
    let a2 := address_at env domain (drawn s + 20) in
    exists s',
      create_new_account key domain pw max_retries env s
      = (Ok (mkClient key (Some a2) (Some pw) id mid), s') /\
      trace s' =
      (trace s ++ [EvRequest (creation_request a0 pw); EvSleep 3;
                   EvRequest (creation_request a1 pw); EvSleep 3;
                   EvRequest (creation_request a2 pw)])%list /\
      creation_calls (trace s') = 3%nat /\
      (NoDup [a0; a1; a2] <-> NoDup [u0; u1; u2]).
Proof.
  intros env key domain pw max_retries s account_data id inbox mid
         Hkey Hmax Hnone Hfail Hok Hid Hinbox Hmid u0 u1 u2 a0 a1 a2.
  set (s0 := with_self s (mkClient key None None JNull JNull)).
  set (s1 := slept (sent env domain pw s0)).
  set (s2 := slept (sent env domain pw s1)).
  assert (Hd1 : drawn s1 = (drawn s + 10)%nat) by reflexivity.
  assert (Hd2 : drawn s2 = (drawn s + 20)%nat)
    by (cbn; now rewrite <- Nat.add_assoc).
  assert (Ht1 : trace s1 =
                (trace s ++ [EvRequest (creation_request a0 pw); EvSleep 3])
                %list)
    by (cbn; now rewrite <- app_assoc).
  assert (Ht2 : trace s2 =
                (trace s ++ [EvRequest (creation_request a0 pw); EvSleep 3;
                             EvRequest (creation_request a1 pw); EvSleep 3])
                %list).
  { change (trace s2)
      with ((trace s1
             ++ [EvRequest (creation_request
                              (address_at env domain (drawn s1)) pw)])
            ++ [EvSleep 3])%list.
    rewrite Ht1, Hd1, <- !app_assoc. reflexivity. }
  assert (Hc1 : creation_calls (trace s1) = 1%nat).
  { change (trace s1)
      with ((trace s ++ [EvRequest (creation_request a0 pw)])
            ++ [EvSleep 3])%list.
    rewrite !creation_calls_app, Hnone. reflexivity. }
  assert (Hc2 : creation_calls (trace s2) = 2%nat).
  { change (trace s2)
      with ((trace s1
             ++ [EvRequest (creation_request
                              (address_at env domain (drawn s1)) pw)])
            ++ [EvSleep 3])%list.
    rewrite !creation_calls_app, Hc1. reflexivity. }
  destruct (create_attempt_gateway_fails env domain pw s0) as [m0 Hrun0];
    [apply Hfail; [reflexivity | change (trace s0) with (trace s); lia] |].
  destruct (create_attempt_gateway_fails env domain pw s1) as [m1 Hrun1];
    [apply Hfail; [reflexivity | lia] |].
  assert (Hrun2 : create_attempt domain pw env s2
                  = (Ok tt, with_self (sent env domain pw s2)
                              (mkClient key (Some a2) (Some pw) id mid))).
  { rewrite create_attempt_run. cbv zeta.
    rewrite (Hok (trace s2)
                 (creation_request (address_at env domain (drawn s2)) pw)
                 eq_refl Hc2), Hid, Hinbox,
      (inbox_truthy _ _ Hinbox), Hmid. cbn [negb].
    rewrite Hd2. reflexivity. }
  destruct (Z.to_nat max_retries) as [| [| [| n]]] eqn:Hn; try lia.
  eexists. split; [| split; [| split]].
  - unfold create_new_account, bind at 1.
    rewrite MailTmClient_run by exact Hkey. fold s0.
    unfold bind at 1. rewrite Hn.
    rewrite create_loop_step, Hrun0. cbn [is_MailTmError].
    replace (0 <? max_retries - 1) with true by (symmetry; apply Z.ltb_lt; lia).
    fold s1. rewrite create_loop_step, Hrun1. cbn [is_MailTmError].
    replace (0 + 1 <? max_retries - 1) with true
      by (symmetry; apply Z.ltb_lt; lia).
    fold s2. rewrite create_loop_step, Hrun2.
    unfold get_self. reflexivity.
  - cbn [with_self sent trace]. rewrite Ht2, Hd2, <- app_assoc. reflexivity.
  - cbn [with_self sent trace]. rewrite creation_calls_app, Hc2. reflexivity.
  - change [a0; a1; a2]
      with (map (fun u => u ++ "@" ++ domain) [u0; u1; u2]).
    split; [apply NoDup_map_inv |].
    apply NoDup_map_injective. intros x y. apply append_cancel_r.
Qed.

Lemma create_new_account_third_attempt_witness :
  exists s',
    create_new_account "key" "vvvcx.me" "thisispassword" 3
      (Stub.env_of Stub.fails_twice Stub.count_up) Stub.fresh
    = (Ok (mkClient "key" (Some "uvwxyz0123@vvvcx.me")
                    (Some "thisispassword") (JStr "acc1") (JStr "mb1")), s')
    /\ creation_calls (trace s') = 3%nat.
Proof.
  assert (Hfail : forall h r,
             is_creation (EvRequest r) = true ->
             (creation_calls h < 2)%nat ->
             gateway_fails
               (snd (upstream (Stub.env_of Stub.fails_twice Stub.count_up)
                              h r)) = true).
  { intros h r _ Hlt. unfold Stub.env_of, Stub.fails_twice. cbn [upstream].
    apply Nat.ltb_lt in Hlt. now rewrite Hlt. }
  assert (Hok : forall h r,
             is_creation (EvRequest r) = true ->
             creation_calls h = 2%nat ->
             answer (Stub.env_of Stub.fails_twice Stub.count_up) h r
             = inr (Stub.account "acc1" "mb1")).
  { intros h r _ Heq. unfold answer, Stub.env_of, Stub.fails_twice.
    cbn [upstream]. now rewrite Heq. }
  assert (Hkey : "key" <> "") by discriminate.
  assert (Hmax : 3 <= 3) by lia.
  destruct (create_new_account_third_attempt
              (Stub.env_of Stub.fails_twice Stub.count_up)
              "key" "vvvcx.me" "thisispassword" 3 Stub.fresh
              (Stub.account "acc1" "mb1") (JStr "acc1")
              (JObj [("id", JStr "mb1"); ("path", JStr "INBOX")])
              (JStr "mb1") Hkey Hmax eq_refl Hfail Hok
              eq_refl eq_refl eq_refl)
    as [s' [Hrun [_ [Hcalls _]]]].
  exists s'. split; [| exact Hcalls].
  rewrite Hrun. vm_compute. reflexivity.
Defined.

(** C6, as the claim has it, fails: nothing keeps the generator from
    drawing the same username again, and then the three calls carry the
    same address. *)
Lemma create_new_account_same_address_thrice :
  fst (create_new_account "key" "vvvcx.me" "thisispassword" 3
         (Stub.env_of Stub.fails_twice Stub.always_zero) Stub.fresh)
  = Ok (mkClient "key" (Some "aaaaaaaaaa@vvvcx.me") (Some "thisispassword")
                 (JStr "acc1") (JStr "mb1")) /\
  posted_addresses
    (trace (snd (create_new_account "key" "vvvcx.me" "thisispassword" 3
                   (Stub.env_of Stub.fails_twice Stub.always_zero)
                   Stub.fresh)))
  = [JStr "aaaaaaaaaa@vvvcx.me"; JStr "aaaaaaaaaa@vvvcx.me";
     JStr "aaaaaaaaaa@vvvcx.me"] /\
  ~ NoDup [JStr "aaaaaaaaaa@vvvcx.me"; JStr "aaaaaaaaaa@vvvcx.me";
           JStr "aaaaaaaaaa@vvvcx.me"].
Proof.
  split; [vm_compute; reflexivity | split; [vm_compute; reflexivity |]].
  intros H. inversion H as [| x l Hnotin _]; subst.
  apply Hnotin. now left.
Qed.

(* ================================================================== *)
(** ** The [/api/wait_for_message] handler *)
(* ================================================================== *)

Lemma missing_ids_present env fields account mailbox s :
  lookup "accountId" fields = Some account ->
  lookup "mailboxId" fields = Some mailbox ->
  missing_ids (JObj fields) env s = (Ok false, s).
Proof.
  intros Ha Hm. unfold missing_ids.
  destruct fields as [| kv fields]; [discriminate |].
  cbn [truthy negb]. unfold bind, lift, contains. rewrite Ha, Hm.
  reflexivity.
Qed.

Lemma missing_ids_absent env data s :
  truthy data = false \/
  (exists fields,
      data = JObj fields /\
      (lookup "accountId" fields = None \/ lookup "mailboxId" fields = None)) ->
  missing_ids data env s = (Ok true, s).
Proof.
  unfold missing_ids. intros [Hfalse | [fields [-> Hnone]]].
  - rewrite Hfalse. reflexivity.
  - destruct (truthy (JObj fields)); [| reflexivity].
    cbn [negb]. unfold bind, lift, contains.
    destruct (lookup "accountId" fields) as [a |].
    + destruct Hnone as [Hnone | Hnone]; [discriminate |].
      rewrite Hnone. reflexivity.
    + reflexivity.
Qed.

(** The handler on a body that carries both identifiers and convertible
    timings: one poll, then the session is closed. *)
Lemma api_wait_for_message_run env fuel key fields account mailbox t i s :
  key <> "" ->
  lookup "accountId" fields = Some account ->
  lookup "mailboxId" fields = Some mailbox ->
  py_int (int_of_str env) (or_default (lookup "timeout" fields) (JInt 60))
  = inr t ->
  py_int (int_of_str env) (or_default (lookup "interval" fields) (JInt 5))
  = inr i ->
  api_wait_for_message fuel (Some key) (JObj fields) env s =
  match wait_for_message fuel t i env (polling_state key account mailbox s)
  with
  | (Ok message, s1) => (Ok (message, 200), closed s1)
  | (Err e, s1) =>
      (if is_MessageTimeoutError e then Ok (error_body (exn_str e), 408)
       else if is_MailTmError e then Ok (error_body (exn_str e), 500)
       else Err e,
       closed s1)
  | (OutOfFuel, s1) => (OutOfFuel, s1)
  end.
Proof.
  intros Hkey Ha Hm Ht Hi.
  destruct key as [| c key]; [contradiction |].
  cbn [api_wait_for_message].
  rewrite (bind_ok _ _ env s false s
             (missing_ids_present env fields account mailbox s Ha Hm)).
  cbv beta iota.
  rewrite (bind_ok _ _ env s account s)
    by (unfold lift, getitem; now rewrite Ha).
  rewrite (bind_ok _ _ env s mailbox s)
    by (unfold lift, getitem; now rewrite Hm).
  rewrite (bind_ok _ _ env s
             (or_default (lookup "timeout" fields) (JInt 60)) s)
    by (unfold lift, dict_get_default, dict_get;
        now destruct (lookup "timeout" fields)).
  rewrite (bind_ok _ _ env s
             (or_default (lookup "interval" fields) (JInt 5)) s)
    by (unfold lift, dict_get_default, dict_get;
        now destruct (lookup "interval" fields)).
  rewrite (bind_ok _ _ env s tt _
             (MailTmClient_run env (String c key) s Hkey)).
  unfold bind at 1, get_self at 1, bind at 1, put_self at 1,
    bind at 1, get_self at 1, bind at 1, put_self at 1.
  cbn [with_self clock trace drawn self api_key address password account_id
       mailbox_id].
  fold (polling_state (String c key) account mailbox s).
  set (s0 := polling_state (String c key) account mailbox s).
  unfold try_finally, try_except.
  rewrite (bind_ok _ _ env s0 t s0) by (unfold to_int; now rewrite Ht).
  rewrite (bind_ok _ _ env s0 i s0) by (unfold to_int; now rewrite Hi).
  unfold bind at 1.
  destruct (wait_for_message fuel t i env s0) as [[message | e |] s1];
    try reflexivity.
  cbn [handle].
  destruct (is_MessageTimeoutError e); [reflexivity |].
  destruct (is_MailTmError e); reflexivity.
Qed.

(** A body that [in] cannot search: a number that is not zero, or [true]. *)
Lemma missing_ids_unsearchable env data s :
  data = JBool true \/
  (exists z, data = JInt z /\ z <> 0) \/
  (exists q, data = JFloat q /\ Qnum q <> 0) ->
  missing_ids data env s = (Err (PyError TypeError), s).
Proof.
  unfold missing_ids. intros [-> | [[z [-> Hz]] | [q [-> Hq]]]].
  - reflexivity.
  - cbn [truthy]. apply Z.eqb_neq in Hz. rewrite Hz. reflexivity.
  - cbn [truthy]. apply Z.eqb_neq in Hq. rewrite Hq. reflexivity.
Qed.

Lemma bind_err {A B} (m : M A) (k : A -> M B) env s e s1 :
  m env s = (Err e, s1) -> bind m k env s = (Err e, s1).
Proof. intros H. unfold bind. now rewrite H. Qed.

(** C7, as the code has it. On a server that has an API key: (1) a body
    that is missing, empty, or an object without ["accountId"] or without
    ["mailboxId"] is answered 400, and nothing else happens; (2) a body
    that is a number other than zero, or [true], is answered 500: the
    membership test raises [TypeError], which leaves the handler before a
    client is built; (3) on an object with both names and convertible
    timings the handler polls once and closes the session: the status is
    408 exactly when the poll raised [MessageTimeoutError], it is 200 with
    the message when the poll returned one, and 500 on every other error of
    the poll (a [MailTmError] is answered by the handler with its text, any
    other exception leaves the handler). *)
Theorem api_wait_for_message_statuses :
  forall env fuel key s,
    key <> "" ->
    (forall data,
        truthy data = false \/
        (exists fields,
            data = JObj fields /\
            (lookup "accountId" fields = None \/
             lookup "mailboxId" fields = None)) ->
        api_wait_for_message fuel (Some key) data env s
        = (Ok (error_body
                 "Missing 'accountId' or 'mailboxId' in request body", 400),
           s)) /\
    (forall data,
        data = JBool true \/
        (exists z, data = JInt z /\ z <> 0) \/
        (exists q, data = JFloat q /\ Qnum q <> 0) ->
        api_wait_for_message fuel (Some key) data env s
        = (Err (PyError TypeError), s) /\
        http_status
          (fst (api_wait_for_message fuel (Some key) data env s))
        = Some 500) /\
    (forall fields account mailbox t i,
        lookup "accountId" fields = Some account ->
        lookup "mailboxId" fields = Some mailbox ->
        py_int (int_of_str env)
               (or_default (lookup "timeout" fields) (JInt 60)) = inr t ->
        py_int (int_of_str env)
               (or_default (lookup "interval" fields) (JInt 5)) = inr i ->
        let poll :=
          wait_for_message fuel t i env
                           (polling_state key account mailbox s) in
        let reply := api_wait_for_message fuel (Some key) (JObj fields) env s in
        (http_status (fst reply) = Some 408 <->
         exists msg, fst poll = Err (MessageTimeoutError msg)) /\
        (forall message,
            fst poll = Ok message -> fst reply = Ok (message, 200)) /\
        (forall e,
            fst poll = Err e ->
            is_MessageTimeoutError e = false ->
            http_status (fst reply) = Some 500 /\
            (is_MailTmError e = true ->
             fst reply = Ok (error_body (exn_str e), 500))) /\
        (fst poll <> OutOfFuel -> snd reply = closed (snd poll))).
Proof.
  intros env fuel key s Hkey. split; [| split].
  - intros data Hmissing.
    destruct key as [| c key]; [contradiction |].
    cbn [api_wait_for_message].
    rewrite (bind_ok _ _ env s true s (missing_ids_absent env data s Hmissing)).
    reflexivity.
  - intros data Hshape.
    assert (Hrun : api_wait_for_message fuel (Some key) data env s
                   = (Err (PyError TypeError), s)).
    { destruct key as [| c key]; [contradiction |].
      cbn [api_wait_for_message].
      apply bind_err. now apply missing_ids_unsearchable. }
    rewrite Hrun. split; reflexivity.
  - intros fields account mailbox t i Ha Hm Ht Hi poll reply.
    subst reply.
    rewrite (api_wait_for_message_run env fuel key fields account mailbox
               t i s Hkey Ha Hm Ht Hi).
    fold poll. destruct poll as [[message | e |] s1]; cbn [fst snd].
    + split; [split; [discriminate | intros [msg H]; discriminate] |].
      split; [intros m H; now inversion H |].
      split; [intros e H; discriminate | reflexivity].
    + split; [split |].
      * destruct e as [m | m c | m | b]; cbn; try discriminate.
        intros _. now exists m.
      * intros [msg H]. inversion H; subst. reflexivity.
      * split; [intros m H; discriminate |].
        split; [| reflexivity].
        intros e0 He0 Hclass. inversion He0; subst e0.
        rewrite Hclass. split.
        -- now destruct (is_MailTmError e).
        -- intros Hmail. now rewrite Hmail.
    + split; [split; [discriminate | intros [msg H]; discriminate] |].
      split; [intros m H; discriminate |].
      split; [intros e H; discriminate | congruence].
Qed.

Lemma api_wait_for_message_statuses_witness :
  api_wait_for_message 1 (Some "key") (JObj [("accountId", JStr "acc1")])
    (Stub.env_of Stub.has_mail Stub.count_up) Stub.fresh
  = (Ok (error_body "Missing 'accountId' or 'mailboxId' in request body",
         400), Stub.fresh) /\
  api_wait_for_message 1 (Some "key") (JBool true)
    (Stub.env_of Stub.has_mail Stub.count_up) Stub.fresh
  = (Err (PyError TypeError), Stub.fresh) /\
  (http_status
     (fst (api_wait_for_message 1 (Some "key")
             (JObj [("accountId", JStr "acc1"); ("mailboxId", JStr "mb1");
                    ("timeout", JStr "0")])
             (Stub.env_of Stub.has_mail Stub.count_up) Stub.fresh))
   = Some 408 <->
   exists msg,
     fst (wait_for_message 1 0 5 (Stub.env_of Stub.has_mail Stub.count_up)
            (polling_state "key" (JStr "acc1") (JStr "mb1") Stub.fresh))
     = Err (MessageTimeoutError msg)).
Proof.
  assert (Hkey : "key" <> "") by discriminate.
  destruct (api_wait_for_message_statuses
              (Stub.env_of Stub.has_mail Stub.count_up) 1 "key" Stub.fresh
              Hkey) as [Hmissing [Hnumber Hpoll]].
  split; [| split].
  - apply Hmissing. right. eexists. split; [reflexivity |]. now right.
  - exact (proj1 (Hnumber (JBool true) (or_introl eq_refl))).
  - exact (proj1 (Hpoll [("accountId", JStr "acc1");
                         ("mailboxId", JStr "mb1"); ("timeout", JStr "0")]
                        (JStr "acc1") (JStr "mb1") 0 5
                        eq_refl eq_refl eq_refl eq_refl)).
Defined.

(** C7, as the claim has it, fails twice over. On a server without an API
    key a body that omits both identifiers is answered 500, not 400. On a
    server with a key a body that is the number 5, which omits both
    identifiers as well, is not answered 400 either: the membership test
    raises [TypeError], which leaves the handler and is answered 500. *)
Lemma api_wait_for_message_not_400 :
  api_wait_for_message 1 None (JObj [("timeout", JInt 5)])
    (Stub.env_of Stub.has_mail Stub.count_up) Stub.fresh
  = (Ok (error_body "Server is not configured with an API key.", 500),
     Stub.fresh) /\
  api_wait_for_message 1 (Some "key") (JInt 5)
    (Stub.env_of Stub.has_mail Stub.count_up) Stub.fresh
  = (Err (PyError TypeError), Stub.fresh) /\
  http_status
    (fst (api_wait_for_message 1 (Some "key") (JInt 5)
            (Stub.env_of Stub.has_mail Stub.count_up) Stub.fresh))
  = Some 500.
Proof. repeat split; reflexivity. Qed.

(* ================================================================== *)
(** ** Further properties: usernames and the retry loop *)
(* ================================================================== *)

Lemma username_at_alnum env n : forall pos,
  all_lower_alnum (username_at env pos n) = true.
Proof.
  induction n as [| n IH]; intros pos; simpl; [reflexivity |].
  now rewrite (proj2 (letter_spec env pos)), IH.
Qed.

(** X1. For every length and every generator, [generate_random_username]
    returns a string of that length made of lowercase letters and digits
    only; it makes as many draws as characters and touches nothing else. *)
Theorem generate_random_username_alphabet :
  forall env n s,
    exists u,
      generate_random_username n env s
      = (Ok u, mkState (clock s) (trace s) (drawn s + n) (self s)) /\
      String.length u = n /\
      all_lower_alnum u = true.
Proof.
  intros env n s. exists (username_at env (drawn s) n).
  split; [apply generate_random_username_run |].
  split; [apply username_at_length | apply username_at_alnum].
Qed.

Lemma creation_calls_concat t1 t2 :
  creation_calls (t1 ++ t2) = (creation_calls t1 + creation_calls t2)%nat.
Proof. unfold creation_calls. now rewrite filter_app, length_app. Qed.

(** Whatever an attempt ends in, it made its draws and its one call. *)
Lemma create_attempt_footprint env domain pw s r s1 :
  create_attempt domain pw env s = (r, s1) ->
  r <> OutOfFuel /\
  trace s1 = trace (sent env domain pw s) /\
  drawn s1 = drawn (sent env domain pw s) /\
  clock s1 = clock (sent env domain pw s).
Proof.
  rewrite create_attempt_run. cbv zeta.
  destruct (answer env (trace s) _) as [e | account_data].
  { inversion 1; subst. repeat split; discriminate || reflexivity. }
  destruct (getitem account_data "id") as [e | id].
  { inversion 1; subst. repeat split; discriminate || reflexivity. }
  destruct (inbox_of account_data) as [e | [inbox |]];
    try (inversion 1; subst; repeat split; discriminate || reflexivity).
  destruct (negb (truthy inbox));
    try (inversion 1; subst; repeat split; discriminate || reflexivity).
  destruct (getitem inbox "id") as [e | mid];
    inversion 1; subst; repeat split; discriminate || reflexivity.
Qed.

Lemma create_loop_footprint env domain pw max_retries :
  forall remaining attempt s r s',
    attempt + Z.of_nat remaining = max_retries ->
    create_loop domain pw max_retries remaining attempt env s = (r, s') ->
    exists n,
      (n <= remaining)%nat /\
      (remaining <> O -> n <> O) /\
      trace s' = (trace s ++ retry_trace env domain pw (drawn s) n)%list /\
      drawn s' = (drawn s + 10 * n)%nat.
Proof.
  induction remaining as [| remaining IH]; intros attempt s r s' Hsum Hrun.
  - inversion Hrun; subst. exists O. cbn [retry_trace].
    rewrite app_nil_r. repeat split; lia.
  - rewrite create_loop_step in Hrun.
    destruct (create_attempt domain pw env s) as [r1 s1] eqn:Hatt.
    apply create_attempt_footprint in Hatt.
    destruct Hatt as [Hfuel [Htr [Hdr _]]].
    assert (Hone : exists n,
               (n <= S remaining)%nat /\ (S remaining <> O -> n <> O) /\
               trace s1 = (trace s ++ retry_trace env domain pw (drawn s) n)
                          %list /\
               drawn s1 = (drawn s + 10 * n)%nat).
    { exists 1%nat. rewrite Htr, Hdr. cbn [sent trace drawn retry_trace].
      repeat split; lia. }
    destruct r1 as [[] | e |]; [inversion Hrun; subst; exact Hone | |
                                now contradiction Hfuel].
    destruct (is_MailTmError e); [| inversion Hrun; subst; exact Hone].
    destruct (attempt <? max_retries - 1) eqn:Hmore;
      [| inversion Hrun; subst; exact Hone].
    apply Z.ltb_lt in Hmore.
    destruct remaining as [| remaining]; [lia |].
    apply IH in Hrun; [| lia].
    destruct Hrun as [n [Hle [Hpos [Htrace Hdrawn]]]].
    destruct n as [| n]; [now contradiction Hpos |].
    exists (S (S n)). split; [lia | split; [discriminate |]].
    cbn [slept trace drawn] in Htrace, Hdrawn.
    rewrite Htr, Hdr in Htrace. rewrite Hdr in Hdrawn.
    cbn [sent trace drawn] in Htrace, Hdrawn.
    split; [| lia].
    rewrite Htrace, retry_trace_succ, <- !app_assoc. reflexivity.
Qed.

Lemma retry_trace_closes env domain pw n : forall pos,
  closes (retry_trace env domain pw pos n) = O.
Proof.
  induction n as [| [| n] IH]; intros pos; [reflexivity | reflexivity |].
  rewrite retry_trace_succ. unfold closes in *.
  specialize (IH (pos + 10)%nat).
  remember (retry_trace env domain pw (pos + 10) (S n)) as t.
  simpl. exact IH.
Qed.

(** What a run of [create_new_account] leaves behind. *)
Lemma create_new_account_events :
  forall env key domain pw max_retries s r s',
    key <> "" ->
    create_new_account key domain pw max_retries env s = (r, s') ->
    exists n,
      Z.of_nat n <= Z.max 0 max_retries /\
      trace s' = (trace s ++ retry_trace env domain pw (drawn s) n)%list /\
      drawn s' = (drawn s + 10 * n)%nat.
Proof.
  intros env key domain pw max_retries s r s' Hkey.
  unfold create_new_account, bind at 1.
  rewrite MailTmClient_run by exact Hkey.
  unfold bind at 1.
  destruct (create_loop domain pw max_retries (Z.to_nat max_retries) 0 env
              (with_self s (mkClient key None None JNull JNull)))
    as [r1 s1] eqn:Hloop.
  intros Hrun.
  assert (Hs : trace s' = trace s1 /\ drawn s' = drawn s1)
    by (destruct r1 as [[] | e |]; unfold get_self in Hrun;
        inversion Hrun; subst; split; reflexivity).
  destruct Hs as [Hs1 Hs2].
  destruct (Z_le_gt_dec 0 max_retries) as [Hpos | Hneg].
  - apply create_loop_footprint in Hloop; [| lia].
    destruct Hloop as [n [Hle [_ [Htrace Hdrawn]]]].
    cbn [with_self trace drawn] in Htrace, Hdrawn.
    exists n. rewrite Hs1, Hs2, Htrace, Hdrawn.
    split; [lia | split; reflexivity].
  - replace (Z.to_nat max_retries) with O in Hloop by lia.
    inversion Hloop; subst. exists O. cbn [retry_trace].
    rewrite Hs1, Hs2. cbn [with_self trace drawn]. rewrite app_nil_r.
    repeat split; try reflexivity; lia.
Qed.

(** X2. Whatever the gateway answers and however the call ends,
    [create_new_account] leaves the events of some number [n] of attempts
    and nothing else: [n] creation calls, at most [max_retries] of them,
    each on an address made of ten new draws, a three-second sleep between
    two consecutive calls, none after the last; no other request, and the
    session is not closed. *)
Theorem create_new_account_footprint :
  forall env key domain pw max_retries s r s',
    key <> "" ->
    create_new_account key domain pw max_retries env s = (r, s') ->
    exists n,
      Z.of_nat n <= Z.max 0 max_retries /\
      trace s' = (trace s ++ retry_trace env domain pw (drawn s) n)%list /\
      drawn s' = (drawn s + 10 * n)%nat /\
      creation_calls (trace s') = (creation_calls (trace s) + n)%nat /\
      sleeps (retry_trace env domain pw (drawn s) n) = repeat 3 (n - 1) /\
      closes (retry_trace env domain pw (drawn s) n) = O.
Proof.
  intros env key domain pw max_retries s r s' Hkey Hrun.
  destruct (create_new_account_events env key domain pw max_retries s r s'
              Hkey Hrun) as [n [Hle [Htrace Hdrawn]]].
  exists n. split; [exact Hle | split; [exact Htrace |]].
  split; [exact Hdrawn |].
  split; [now rewrite Htrace, creation_calls_concat, retry_trace_calls |].
  split; [apply retry_trace_sleeps | apply retry_trace_closes].
Qed.

Lemma create_new_account_footprint_witness :
  exists n,
    Z.of_nat n <= Z.max 0 3 /\
    trace (snd (create_new_account "key" "vvvcx.me" "thisispassword" 3
                  (Stub.env_of Stub.fails_twice Stub.count_up) Stub.fresh))
    = retry_trace (Stub.env_of Stub.fails_twice Stub.count_up)
                  "vvvcx.me" "thisispassword" 0 n.
Proof.
  assert (Hkey : "key" <> "") by discriminate.
  destruct (create_new_account_footprint
              (Stub.env_of Stub.fails_twice Stub.count_up)
              "key" "vvvcx.me" "thisispassword" 3 Stub.fresh _ _ Hkey
              (surjective_pairing _))
    as [n [Hle [Htrace _]]].
  exists n. split; [exact Hle | exact Htrace].
Defined.

(** X3. With a bound on the attempts that is zero or negative the loop body
    never runs: [create_new_account] raises the [AccountCreationError] that
    follows the loop, without a cause, and no draw, call or sleep was
    made. *)
Theorem create_new_account_no_attempt_allowed :
  forall env key domain pw max_retries s,
    key <> "" ->
    max_retries <= 0 ->
    create_new_account key domain pw max_retries env s
    = (Err (AccountCreationError "未知錯誤導致帳號創建失敗。" None),
       with_self s (mkClient key None None JNull JNull)).
Proof.
  intros env key domain pw max_retries s Hkey Hmax.
  unfold create_new_account, bind at 1.
  rewrite MailTmClient_run by exact Hkey.
  replace (Z.to_nat max_retries) with O by lia. reflexivity.
Qed.

Lemma create_new_account_no_attempt_allowed_witness :
  create_new_account "key" "vvvcx.me" "thisispassword" 0
    (Stub.env_of Stub.fails_twice Stub.count_up) Stub.fresh
  = (Err (AccountCreationError "未知錯誤導致帳號創建失敗。" None),
     with_self Stub.fresh (mkClient "key" None None JNull JNull)).
Proof.
  apply (create_new_account_no_attempt_allowed
           (Stub.env_of Stub.fails_twice Stub.count_up)
           "key" "vvvcx.me" "thisispassword" 0 Stub.fresh);
    [discriminate | lia].
Defined.

(** X4. Only a [MailTmError] is retried. When the first creation call comes
    back with a 2xx status and a body that is not JSON, or with data that
    [account_data["id"]] cannot be read from (no such key, or not an object
    at all, as after a 204), the builtin exception leaves
    [create_new_account] at once: one call was made, nothing was slept,
    however many attempts were allowed. *)
Theorem create_new_account_malformed_answer :
  forall env key domain pw max_retries s b,
    key <> "" ->
    1 <= max_retries ->
    answer env (trace s)
           (creation_request (address_at env domain (drawn s)) pw)
    = inl (PyError b) \/
    (exists account_data,
        answer env (trace s)
               (creation_request (address_at env domain (drawn s)) pw)
        = inr account_data /\
        getitem account_data "id" = inl (PyError b)) ->
    exists s',
      create_new_account key domain pw max_retries env s
      = (Err (PyError b), s') /\
      trace s' =
      (trace s ++ [EvRequest (creation_request
                                (address_at env domain (drawn s)) pw)])%list.
Proof.
  intros env key domain pw max_retries s b Hkey Hmax Hbad.
  set (s0 := with_self s (mkClient key None None JNull JNull)).
  assert (Hatt : create_attempt domain pw env s0
                 = (Err (PyError b), sent env domain pw s0)).
  { rewrite create_attempt_run. cbv zeta.
    change (trace s0) with (trace s). change (drawn s0) with (drawn s).
    destruct Hbad as [Hans | [account_data [Hans Hid]]].
    - now rewrite Hans.
    - now rewrite Hans, Hid. }
  exists (sent env domain pw s0). split; [| reflexivity].
  unfold create_new_account, bind at 1.
  rewrite MailTmClient_run by exact Hkey. fold s0.
  destruct (Z.to_nat max_retries) as [| remaining] eqn:Hn; [lia |].
  unfold bind at 1. rewrite create_loop_step, Hatt. reflexivity.
Qed.

Lemma create_new_account_malformed_answer_witness :
  exists s',
    create_new_account "key" "vvvcx.me" "thisispassword" 3
      (Stub.env_of Stub.malformed Stub.count_up) Stub.fresh
    = (Err (PyError KeyError), s') /\
    trace s' =
    [EvRequest (creation_request "abcdefghij@vvvcx.me" "thisispassword")].
Proof.
  assert (Hkey : "key" <> "") by discriminate.
  assert (Hmax : 1 <= 3) by lia.
  destruct (create_new_account_malformed_answer
              (Stub.env_of Stub.malformed Stub.count_up)
              "key" "vvvcx.me" "thisispassword" 3 Stub.fresh KeyError
              Hkey Hmax)
    as [s' [Hrun Htrace]].
  - right. exists (JObj [("address", JStr "x@vvvcx.me")]).
    split; reflexivity.
  - exists s'. split; [exact Hrun | exact Htrace].
Defined.

Lemma slept_sent_calls env domain pw s :
  creation_calls (trace (slept (sent env domain pw s)))
  = S (creation_calls (trace s)).
Proof.
  cbn [slept sent trace]. rewrite !creation_calls_app. cbn. lia.
Qed.

(** The loop against a gateway that fails every creation call until the
    history holds [target] of them, and then answers with usable data. *)
Lemma create_loop_late_success env domain pw max_retries target
      account_data id inbox mid :
  (forall h r,
      is_creation (EvRequest r) = true ->
      (creation_calls h < target)%nat ->
      gateway_fails (snd (upstream env h r)) = true) ->
  (forall h r,
      is_creation (EvRequest r) = true ->
      creation_calls h = target ->
      answer env h r = inr account_data) ->
  getitem account_data "id" = inr id ->
  inbox_of account_data = inr (Some inbox) ->
  getitem inbox "id" = inr mid ->
  forall k remaining attempt s,
    (creation_calls (trace s) + k)%nat = target ->
    (k < remaining)%nat ->
    attempt + Z.of_nat remaining = max_retries ->
    exists s',
      create_loop domain pw max_retries remaining attempt env s
      = (Ok tt, s') /\
      trace s' =
      (trace s ++ retry_trace env domain pw (drawn s) (S k))%list /\
      self s' =
      mkClient (api_key (self s))
               (Some (address_at env domain (drawn s + 10 * k))) (Some pw)
               id mid.
Proof.
  intros Hfail Hok Hid Hinbox Hmid.
  induction k as [| k IH]; intros remaining attempt s Hcalls Hlt Hsum;
    (destruct remaining as [| remaining]; [lia |]);
    rewrite create_loop_step.
  - rewrite create_attempt_run. cbv zeta.
    rewrite (Hok (trace s)
                 (creation_request (address_at env domain (drawn s)) pw)
                 eq_refl) by lia.
    rewrite Hid, Hinbox, (inbox_truthy _ _ Hinbox), Hmid. cbn [negb].
    eexists. split; [reflexivity |].
    cbn [with_self sent trace self].
    split; [reflexivity |].
    now rewrite Nat.mul_0_r, Nat.add_0_r.
  - destruct (create_attempt_gateway_fails env domain pw s) as [msg Hrun];
      [apply Hfail; [reflexivity | lia] |].
    rewrite Hrun. cbn [is_MailTmError].
    replace (attempt <? max_retries - 1) with true
      by (symmetry; apply Z.ltb_lt; lia).
    destruct (IH remaining (attempt + 1) (slept (sent env domain pw s)))
      as [s' [Hloop [Htrace Hself]]];
      [rewrite slept_sent_calls; lia | lia | lia |].
    exists s'. split; [exact Hloop |].
    cbn [slept sent trace drawn self] in Htrace, Hself.
    split.
    + rewrite Htrace, retry_trace_succ, <- !app_assoc. reflexivity.
    + rewrite Hself. do 2 f_equal. f_equal. lia.
Qed.

(** X5. If the gateway fails the first [k] creation calls and answers the
    next with data that carries an id and an inbox, and more than [k]
    attempts are allowed, [create_new_account] returns the client built on
    the last address; the trace gained [k + 1] creation calls and the [k]
    three-second sleeps between them. *)
Theorem create_new_account_late_success :
  forall env key domain pw max_retries s k account_data id inbox mid,
    key <> "" ->
    Z.of_nat k < max_retries ->
    (forall h r,
        is_creation (EvRequest r) = true ->
        (creation_calls h < creation_calls (trace s) + k)%nat ->
        gateway_fails (snd (upstream env h r)) = true) ->
    (forall h r,
        is_creation (EvRequest r) = true ->
        creation_calls h = (creation_calls (trace s) + k)%nat ->
        answer env h r = inr account_data) ->
    getitem account_data "id" = inr id ->
    inbox_of account_data = inr (Some inbox) ->
    getitem inbox "id" = inr mid ->
    exists s',
      create_new_account key domain pw max_retries env s
      = (Ok (mkClient key
                      (Some (address_at env domain (drawn s + 10 * k)))
                      (Some pw) id mid), s') /\
      trace s' =
      (trace s ++ retry_trace env domain pw (drawn s) (S k))%list /\
      creation_calls (retry_trace env domain pw (drawn s) (S k)) = S k /\
      sleeps (retry_trace env domain pw (drawn s) (S k)) = repeat 3 k.
Proof.
  intros env key domain pw max_retries s k account_data id inbox mid
         Hkey Hk Hfail Hok Hid Hinbox Hmid.
  destruct (create_loop_late_success env domain pw max_retries
              (creation_calls (trace s) + k)%nat account_data id inbox mid
              Hfail Hok Hid Hinbox Hmid
              k (Z.to_nat max_retries) 0
              (with_self s (mkClient key None None JNull JNull)))
    as [s' [Hloop [Htrace Hself]]]; [reflexivity | lia | lia |].
  exists s'. split; [| split; [exact Htrace | split]].
  - unfold create_new_account, bind at 1.
    rewrite MailTmClient_run by exact Hkey.
    unfold bind at 1. rewrite Hloop. unfold get_self. now rewrite Hself.
  - apply retry_trace_calls.
  - rewrite retry_trace_sleeps. now rewrite Nat.sub_succ, Nat.sub_0_r.
Qed.

Lemma create_new_account_late_success_witness :
  exists s',
    create_new_account "key" "vvvcx.me" "thisispassword" 5
      (Stub.env_of Stub.fails_twice Stub.count_up) Stub.fresh
    = (Ok (mkClient "key"
             (Some (address_at (Stub.env_of Stub.fails_twice Stub.count_up)
                               "vvvcx.me" 20))
             (Some "thisispassword") (JStr "acc1") (JStr "mb1")), s') /\
    sleeps (trace s') = [3; 3].
Proof.
  assert (Hfail : forall h r,
             is_creation (EvRequest r) = true ->
             (creation_calls h < 2)%nat ->
             gateway_fails
               (snd (upstream (Stub.env_of Stub.fails_twice Stub.count_up)
                              h r)) = true).
  { intros h r _ Hlt. unfold Stub.env_of, Stub.fails_twice. cbn [upstream].
    apply Nat.ltb_lt in Hlt. now rewrite Hlt. }
  assert (Hok : forall h r,
             is_creation (EvRequest r) = true ->
             creation_calls h = 2%nat ->
             answer (Stub.env_of Stub.fails_twice Stub.count_up) h r
             = inr (Stub.account "acc1" "mb1")).
  { intros h r _ Heq. unfold answer, Stub.env_of, Stub.fails_twice.
    cbn [upstream]. now rewrite Heq. }
  assert (Hkey : "key" <> "") by discriminate.
  assert (Hk : Z.of_nat 2 < 5) by (simpl; lia).
  destruct (create_new_account_late_success
              (Stub.env_of Stub.fails_twice Stub.count_up)
              "key" "vvvcx.me" "thisispassword" 5 Stub.fresh 2%nat
              (Stub.account "acc1" "mb1") (JStr "acc1")
              (JObj [("id", JStr "mb1"); ("path", JStr "INBOX")])
              (JStr "mb1") Hkey Hk Hfail Hok eq_refl eq_refl eq_refl)
    as [s' [Hrun [Htrace [_ Hsleeps]]]].
  exists s'. split; [exact Hrun |].
  rewrite Htrace. exact Hsleeps.
Defined.

(** X6. The inbox lookup of [create_attempt] stops at the first entry
    whose path is ["INBOX"]. (1) In a list where such an entry comes after
    objects with other paths only, the lookup gives that entry whatever
    follows it: a second inbox, or an entry that is no object at all, is
    not looked at. (2) Conversely the entry the lookup gives is the first
    of its kind: every entry before it is an object with another path or
    none. *)
Theorem find_inbox_takes_the_first :
  (forall before inbox after,
      (forall mb, In mb before ->
                  exists fields,
                    mb = JObj fields /\
                    lookup "path" fields <> Some (JStr "INBOX")) ->
      dict_get inbox "path" = inr (Some (JStr "INBOX")) ->
      find_inbox (before ++ inbox :: after) = inr (Some inbox)) /\
  (forall mailboxes inbox,
      find_inbox mailboxes = inr (Some inbox) ->
      exists before after,
        mailboxes = (before ++ inbox :: after)%list /\
        dict_get inbox "path" = inr (Some (JStr "INBOX")) /\
        forall mb, In mb before ->
                   exists fields,
                     mb = JObj fields /\
                     lookup "path" fields <> Some (JStr "INBOX")).
Proof.
  split; [exact find_inbox_first |].
  induction mailboxes as [| mb rest IH]; intros inbox; [discriminate |].
  cbn [find_inbox].
  destruct mb as [| b | z | q | str | items | fields]; try discriminate.
  cbn [dict_get].
  assert (Hskip :
            lookup "path" fields <> Some (JStr "INBOX") ->
            find_inbox rest = inr (Some inbox) ->
            exists before after,
              (JObj fields :: rest = before ++ inbox :: after)%list /\
              dict_get inbox "path" = inr (Some (JStr "INBOX")) /\
              forall mb, In mb before ->
                         exists fields0,
                           mb = JObj fields0 /\
                           lookup "path" fields0 <> Some (JStr "INBOX")).
  { intros Hne Hrest. destruct (IH inbox Hrest)
      as [before [after [-> [Hpath Hbefore]]]].
    exists (JObj fields :: before), after.
    split; [reflexivity | split; [exact Hpath |]].
    intros mb [<- | Hin]; [now exists fields | now apply Hbefore]. }
  destruct (lookup "path" fields) as [[| | | | p | |] |] eqn:Hpath;
    try (apply Hskip; discriminate).
  destruct (String.eqb p "INBOX") eqn:Heq.
  - apply String.eqb_eq in Heq. subst p. inversion 1; subst.
    exists [], rest. split; [reflexivity |].
    split; [cbn [dict_get]; now rewrite Hpath | intros mb []].
  - apply Hskip. intros H. inversion H; subst.
    now rewrite String.eqb_refl in Heq.
Qed.

Lemma find_inbox_takes_the_first_witness :
  find_inbox
    [JObj [("id", JStr "mbx0"); ("path", JStr "Trash")];
     JObj [("id", JStr "mb1"); ("path", JStr "INBOX")];
     JNull;
     JObj [("id", JStr "mb2"); ("path", JStr "INBOX")]]
  = inr (Some (JObj [("id", JStr "mb1"); ("path", JStr "INBOX")])).
Proof.
  apply (proj1 find_inbox_takes_the_first
               [JObj [("id", JStr "mbx0"); ("path", JStr "Trash")]]
               (JObj [("id", JStr "mb1"); ("path", JStr "INBOX")])
               [JNull; JObj [("id", JStr "mb2"); ("path", JStr "INBOX")]]);
    [| reflexivity].
  intros mb [<- | []]. eexists. split; [reflexivity | discriminate].
Defined.

(* ================================================================== *)
(** ** Further properties: polling *)
(* ================================================================== *)

Lemma polled_zero account mailbox interval s :
  polled account mailbox interval 0 s = s.
Proof.
  unfold polled. cbn [poll_trace Z.of_nat].
  rewrite Z.mul_0_l, Z.add_0_r, app_nil_r. apply state_eta.
Qed.

(** [j] rounds against an empty mailbox that answers at once, each entered
    before the deadline, use up [j] units of fuel and lead to [polled]. *)
Lemma wait_loop_rounds env account mailbox start timeout interval :
  0 <= interval ->
  truthy account = true ->
  truthy mailbox = true ->
  forall j fuel s,
    account_id (self s) = account ->
    mailbox_id (self s) = mailbox ->
    (forall i, (i < j)%nat ->
       fst (upstream env (trace s ++ poll_trace account mailbox interval i)
                     (fetch_request account mailbox)) = O /\
       answer env (trace s ++ poll_trace account mailbox interval i)
              (fetch_request account mailbox) = inr (JArr [])) ->
    (j <> O -> clock s - start + (Z.of_nat j - 1) * interval < timeout) ->
    wait_loop (j + fuel) start timeout interval env s
    = wait_loop fuel start timeout interval env
                (polled account mailbox interval j s).
Proof.
  intros Hi Ha Hm.
  induction j as [| j IH]; intros fuel s Hsa Hsm Hempty Hdeadline.
  - now rewrite polled_zero.
  - cbn [Nat.add].
    assert (Hround : 0 <= Z.of_nat j * interval) by nia.
    rewrite wait_loop_enter by (specialize (Hdeadline (Nat.neq_succ_0 j)); nia).
    destruct (Hempty O (Nat.lt_0_succ j)) as [Hlat Hans].
    cbn [poll_trace] in Hlat, Hans. rewrite app_nil_r in Hlat, Hans.
    rewrite empty_fetch; try rewrite Hsa; try rewrite Hsm; auto.
    cbn [truthy]. unfold bind at 1, sleep. cbn [clock trace drawn self].
    rewrite Z.max_r by exact Hi.
    rewrite IH; cbn [self clock trace]; try assumption.
    + f_equal. unfold polled. cbn [clock trace drawn self poll_trace].
      f_equal; [lia |]. rewrite <- !app_assoc. reflexivity.
    + intros i Hlt. rewrite <- !app_assoc.
      apply (Hempty (S i)). lia.
    + intros Hj. specialize (Hdeadline (Nat.neq_succ_0 j)). lia.
Qed.

(** One fetch on a client whose identifiers are set, case by case. *)
Lemma get_latest_message_run env s :
  truthy (account_id (self s)) = true ->
  truthy (mailbox_id (self s)) = true ->
  get_latest_message env s =
  let r := fetch_request (account_id (self s)) (mailbox_id (self s)) in
  let s1 := requested env r s in
  match answer env (trace s) r with
  | inl e => (Err e, s1)
  | inr messages =>
      if truthy messages then
        match getitem_0 messages with
        | inl e => (Err e, s1)
        | inr latest_message =>
            match dict_get latest_message "intro" with
            | inl e => (Err e, s1)
            | inr _ => (Ok latest_message, s1)
            end
        end
      else (Ok JNull, s1)
  end.
Proof.
  intros Ha Hm. unfold get_latest_message, bind at 1, get_self.
  rewrite Ha, Hm. cbn [negb orb]. unfold bind at 1. rewrite request_run.
  cbv zeta. unfold fetch_request, requested.
  destruct (answer env (trace s) _) as [e | messages]; [reflexivity |].
  destruct (truthy messages); [| reflexivity].
  unfold bind at 1, lift at 1.
  destruct (getitem_0 messages) as [e | latest]; [reflexivity |].
  unfold ret at 1, bind at 1, lift at 1.
  destruct (dict_get latest "intro"); reflexivity.
Qed.

(** X7. If the first [k] fetches find the mailbox empty, at once, and the
    next one finds a list that starts with a non-empty object, all before
    the deadline, [wait_for_message] returns that object, whatever follows
    it in the list, after exactly [k] sleeps of [interval] and [k + 1]
    fetches. *)
Theorem wait_for_message_late_arrival :
  forall env fuel timeout interval s k field fields others,
    0 <= interval ->
    truthy (account_id (self s)) = true ->
    truthy (mailbox_id (self s)) = true ->
    Z.of_nat k * interval < timeout ->
    (forall i, (i < k)%nat ->
       fst (upstream env
              (trace s ++ poll_trace (account_id (self s))
                                     (mailbox_id (self s)) interval i)
              (fetch_request (account_id (self s)) (mailbox_id (self s))))
       = O /\
       answer env
              (trace s ++ poll_trace (account_id (self s))
                                     (mailbox_id (self s)) interval i)
              (fetch_request (account_id (self s)) (mailbox_id (self s)))
       = inr (JArr [])) ->
    answer env
           (trace s ++ poll_trace (account_id (self s))
                                  (mailbox_id (self s)) interval k)
           (fetch_request (account_id (self s)) (mailbox_id (self s)))
    = inr (JArr (JObj (field :: fields) :: others)) ->
    wait_for_message (k + S fuel) timeout interval env s
    = (Ok (JObj (field :: fields)),
       requested env
         (fetch_request (account_id (self s)) (mailbox_id (self s)))
         (polled (account_id (self s)) (mailbox_id (self s)) interval k s)).
Proof.
  intros env fuel timeout interval s k field fields others
         Hi Ha Hm Hk Hempty Hfound.
  unfold wait_for_message, bind at 1, loop_time.
  rewrite (wait_loop_rounds env _ _ (clock s) timeout interval Hi Ha Hm
             k (S fuel) s eq_refl eq_refl Hempty)
    by (intros _; nia).
  set (a := account_id (self s)) in *. set (m := mailbox_id (self s)) in *.
  rewrite wait_loop_enter by (cbn [polled clock]; lia).
  rewrite get_latest_message_run by exact Ha || exact Hm.
  cbv zeta. change (self (polled a m interval k s)) with (self s).
  fold a m.
  change (trace (polled a m interval k s))
    with (trace s ++ poll_trace a m interval k)%list.
  rewrite Hfound. reflexivity.
Qed.

Lemma wait_for_message_late_arrival_witness :
  wait_for_message 3 60 5 (Stub.env_of Stub.arrives_third Stub.count_up)
                   Stub.ready
  = (Ok Stub.message,
     requested (Stub.env_of Stub.arrives_third Stub.count_up)
       (fetch_request (JStr "acc1") (JStr "mb1"))
       (polled (JStr "acc1") (JStr "mb1") 5 2 Stub.ready)).
Proof.
  apply (wait_for_message_late_arrival
           (Stub.env_of Stub.arrives_third Stub.count_up)
           0 60 5 Stub.ready 2 ("id", JStr "m1") [("intro", JStr "hello")] []);
    [lia | reflexivity | reflexivity | simpl; lia | | reflexivity].
  intros i Hlt.
  destruct i as [| [| i]]; [split; reflexivity | split; reflexivity | lia].
Defined.

(** X8. A gateway failure during polling is not retried: if the first [k]
    fetches find the mailbox empty and the next one fails, the error of that
    fetch leaves [wait_for_message] at once, after [k] sleeps and [k + 1]
    fetches. *)
Theorem wait_for_message_gateway_failure :
  forall env fuel timeout interval s k e,
    0 <= interval ->
    truthy (account_id (self s)) = true ->
    truthy (mailbox_id (self s)) = true ->
    Z.of_nat k * interval < timeout ->
    (forall i, (i < k)%nat ->
       fst (upstream env
              (trace s ++ poll_trace (account_id (self s))
                                     (mailbox_id (self s)) interval i)
              (fetch_request (account_id (self s)) (mailbox_id (self s))))
       = O /\
       answer env
              (trace s ++ poll_trace (account_id (self s))
                                     (mailbox_id (self s)) interval i)
              (fetch_request (account_id (self s)) (mailbox_id (self s)))
       = inr (JArr [])) ->
    answer env
           (trace s ++ poll_trace (account_id (self s))
                                  (mailbox_id (self s)) interval k)
           (fetch_request (account_id (self s)) (mailbox_id (self s)))
    = inl e ->
    wait_for_message (k + S fuel) timeout interval env s
    = (Err e,
       requested env
         (fetch_request (account_id (self s)) (mailbox_id (self s)))
         (polled (account_id (self s)) (mailbox_id (self s)) interval k s)).
Proof.
  intros env fuel timeout interval s k e Hi Ha Hm Hk Hempty Hfail.
  unfold wait_for_message, bind at 1, loop_time.
  rewrite (wait_loop_rounds env _ _ (clock s) timeout interval Hi Ha Hm
             k (S fuel) s eq_refl eq_refl Hempty)
    by (intros _; nia).
  set (a := account_id (self s)) in *. set (m := mailbox_id (self s)) in *.
  rewrite wait_loop_enter by (cbn [polled clock]; lia).
  rewrite get_latest_message_run by exact Ha || exact Hm.
  cbv zeta. change (self (polled a m interval k s)) with (self s).
  fold a m.
  change (trace (polled a m interval k s))
    with (trace s ++ poll_trace a m interval k)%list.
  rewrite Hfail. reflexivity.
Qed.

Lemma wait_for_message_gateway_failure_witness :
  wait_for_message 3 60 5 (Stub.env_of Stub.breaks_third Stub.count_up)
                   Stub.ready
  = (Err (MailTmError "API 請求失敗: bad gateway"),
     requested (Stub.env_of Stub.breaks_third Stub.count_up)
       (fetch_request (JStr "acc1") (JStr "mb1"))
       (polled (JStr "acc1") (JStr "mb1") 5 2 Stub.ready)).
Proof.
  apply (wait_for_message_gateway_failure
           (Stub.env_of Stub.breaks_third Stub.count_up)
           0 60 5 Stub.ready 2);
    [lia | reflexivity | reflexivity | simpl; lia | | reflexivity].
  intros i Hlt.
  destruct i as [| [| i]]; [split; reflexivity | split; reflexivity | lia].
Defined.

(** X9. Against a mailbox that stays empty and answers at once, the poll
    gives up after exactly [k] rounds, [k] being the least number of
    intervals that reach the timeout: [k] fetches, each followed by a sleep
    of [interval], and a clock advanced by [k * interval]. *)
Theorem wait_for_message_rounds_to_timeout :
  forall env fuel timeout interval s k,
    0 <= interval ->
    truthy (account_id (self s)) = true ->
    truthy (mailbox_id (self s)) = true ->
    timeout <= Z.of_nat k * interval ->
    (k <> O -> (Z.of_nat k - 1) * interval < timeout) ->
    (forall i, (i < k)%nat ->
       fst (upstream env
              (trace s ++ poll_trace (account_id (self s))
                                     (mailbox_id (self s)) interval i)
              (fetch_request (account_id (self s)) (mailbox_id (self s))))
       = O /\
       answer env
              (trace s ++ poll_trace (account_id (self s))
                                     (mailbox_id (self s)) interval i)
              (fetch_request (account_id (self s)) (mailbox_id (self s)))
       = inr (JArr [])) ->
    wait_for_message (k + S fuel) timeout interval env s
    = (Err (timeout_error timeout),
       polled (account_id (self s)) (mailbox_id (self s)) interval k s).
Proof.
  intros env fuel timeout interval s k Hi Ha Hm Hreach Hleast Hempty.
  unfold wait_for_message, bind at 1, loop_time.
  rewrite (wait_loop_rounds env _ _ (clock s) timeout interval Hi Ha Hm
             k (S fuel) s eq_refl eq_refl Hempty)
    by (intros Hk; specialize (Hleast Hk); lia).
  apply wait_loop_exit. cbn [polled clock]. lia.
Qed.

Lemma wait_for_message_rounds_to_timeout_witness :
  wait_for_message 4 12 5 (Stub.env_of Stub.empty_mailbox Stub.count_up)
                   Stub.ready
  = (Err (timeout_error 12),
     polled (JStr "acc1") (JStr "mb1") 5 3 Stub.ready).
Proof.
  apply (wait_for_message_rounds_to_timeout
           (Stub.env_of Stub.empty_mailbox Stub.count_up)
           0 12 5 Stub.ready 3);
    [lia | reflexivity | reflexivity | simpl; lia | intros _; simpl; lia |].
  intros i Hlt. split; reflexivity.
Defined.

Lemma get_latest_message_footprint env s r s1 :
  get_latest_message env s = (r, s1) ->
  r <> OutOfFuel /\
  (s1 = s \/
   s1 = requested env
          (fetch_request (account_id (self s)) (mailbox_id (self s))) s).
Proof.
  destruct (truthy (account_id (self s))) eqn:Ha;
    [destruct (truthy (mailbox_id (self s))) eqn:Hm |].
  - rewrite get_latest_message_run by assumption. cbv zeta.
    destruct (answer env (trace s) _) as [e | messages];
      [inversion 1; subst; split; [discriminate | now right] |].
    destruct (truthy messages);
      [| inversion 1; subst; split; [discriminate | now right]].
    destruct (getitem_0 messages) as [e | latest];
      [inversion 1; subst; split; [discriminate | now right] |].
    destruct (dict_get latest "intro");
      inversion 1; subst; (split; [discriminate | now right]).
  - rewrite unset_ids_raise by (now right).
    inversion 1; subst. split; [discriminate | now left].
  - rewrite unset_ids_raise by (now left).
    inversion 1; subst. split; [discriminate | now left].
Qed.

Lemma wait_loop_footprint env start timeout interval :
  forall fuel s r s',
    wait_loop fuel start timeout interval env s = (r, s') ->
    self s' = self s /\
    drawn s' = drawn s /\
    clock s <= clock s' /\
    exists events,
      trace s' = (trace s ++ events)%list /\
      Forall (is_poll_event (account_id (self s)) (mailbox_id (self s))
                            interval) events.
Proof.
  induction fuel as [| fuel IH]; intros s r s' Hrun.
  - inversion Hrun; subst. repeat split; try lia.
    exists []. now rewrite app_nil_r.
  - destruct (Z_lt_ge_dec (clock s - start) timeout) as [Hlt | Hge].
    + rewrite wait_loop_enter in Hrun by exact Hlt.
      destruct (get_latest_message env s) as [r1 s1] eqn:Hget.
      apply get_latest_message_footprint in Hget.
      destruct Hget as [Hfuel Hs1].
      assert (Hfetch :
                self s1 = self s /\ drawn s1 = drawn s /\
                clock s <= clock s1 /\
                exists events,
                  trace s1 = (trace s ++ events)%list /\
                  Forall (is_poll_event (account_id (self s))
                                        (mailbox_id (self s)) interval)
                         events).
      { destruct Hs1 as [-> | ->].
        - repeat split; try lia. exists []. now rewrite app_nil_r.
        - cbn [requested self drawn clock trace].
          repeat split; try lia. eexists. split; [reflexivity |].
          constructor; [now left | constructor]. }
      destruct Hfetch as [Hself [Hdrawn [Hclock [ev1 [Htr1 Hall1]]]]].
      assert (Hstop : (r, s') = (r1, s1) ->
                      self s' = self s /\ drawn s' = drawn s /\
                      clock s <= clock s' /\
                      exists events,
                        trace s' = (trace s ++ events)%list /\
                        Forall (is_poll_event (account_id (self s))
                                              (mailbox_id (self s)) interval)
                               events).
      { inversion 1; subst. repeat split; try assumption.
        now exists ev1. }
      destruct r1 as [message | e |];
        [| apply Hstop; now rewrite <- Hrun | now contradiction Hfuel].
      destruct (truthy message); [apply Hstop; now rewrite <- Hrun |].
      unfold bind at 1, sleep in Hrun.
      apply IH in Hrun. cbn [self drawn clock trace] in Hrun.
      destruct Hrun as [Hself' [Hdrawn' [Hclock' [ev2 [Htr2 Hall2]]]]].
      rewrite Hself in Hself', Hall2. rewrite Hdrawn in Hdrawn'.
      repeat split; try assumption; [lia |].
      exists (ev1 ++ EvSleep interval :: ev2)%list. split.
      * rewrite Htr2, Htr1, <- !app_assoc. reflexivity.
      * apply Forall_app. split; [exact Hall1 |].
        constructor; [now right | exact Hall2].
    + rewrite wait_loop_exit in Hrun by lia.
      inversion Hrun; subst. repeat split; try lia.
      exists []. now rewrite app_nil_r.
Qed.

(** X10. However it ends, [wait_for_message] leaves the client and the
    random generator as they were and never sets the clock back; the only
    events it adds are fetches of the client's own mailbox and sleeps of
    [interval]: no other request, and the session is not closed. *)
Theorem wait_for_message_footprint :
  forall env fuel timeout interval s r s',
    wait_for_message fuel timeout interval env s = (r, s') ->
    self s' = self s /\
    drawn s' = drawn s /\
    clock s <= clock s' /\
    exists events,
      trace s' = (trace s ++ events)%list /\
      Forall (is_poll_event (account_id (self s)) (mailbox_id (self s))
                            interval) events.
Proof.
  intros env fuel timeout interval s r s'.
  unfold wait_for_message, bind at 1, loop_time.
  apply wait_loop_footprint.
Qed.

Lemma wait_for_message_footprint_witness :
  self (snd (wait_for_message 3 60 5
               (Stub.env_of Stub.arrives_third Stub.count_up) Stub.ready))
  = self Stub.ready.
Proof.
  exact (proj1 (wait_for_message_footprint
                  (Stub.env_of Stub.arrives_third Stub.count_up)
                  3 60 5 Stub.ready _ _ (surjective_pairing _))).
Defined.

(* ================================================================== *)
(** ** Further properties: deletion *)
(* ================================================================== *)

Lemma delete_account_run env s :
  truthy (account_id (self s)) = true ->
  delete_account env s =
  let r := delete_request (account_id (self s)) in
  match answer env (trace s) r with
  | inl e => (Err e, requested env r s)
  | inr _ =>
      (Ok tt,
       with_self (requested env r s)
                 (mkClient (api_key (self s)) None (password (self s)) JNull
                           (mailbox_id (self s))))
  end.
Proof.
  intros Hset. unfold delete_account, bind at 1, get_self.
  rewrite Hset. cbn [negb]. unfold bind at 1. rewrite request_run.
  cbv zeta. unfold delete_request, requested.
  destruct (answer env (trace s) _); reflexivity.
Qed.

(** X11. When the DELETE call fails, [delete_account] raises the gateway's
    error and the client keeps all its fields, [account_id] and [address]
    included; the one request was made. *)
Theorem delete_account_failure_keeps_fields :
  forall env s e,
    truthy (account_id (self s)) = true ->
    answer env (trace s) (delete_request (account_id (self s))) = inl e ->
    delete_account env s
    = (Err e, requested env (delete_request (account_id (self s))) s) /\
    self (requested env (delete_request (account_id (self s))) s) = self s.
Proof.
  intros env s e Hset Hfail.
  rewrite delete_account_run by exact Hset. cbv zeta. rewrite Hfail.
  split; reflexivity.
Qed.

Lemma delete_account_failure_keeps_fields_witness :
  delete_account (Stub.env_of Stub.down Stub.count_up) Stub.ready
  = (Err (MailTmError "API 請求失敗: unavailable"),
     requested (Stub.env_of Stub.down Stub.count_up)
               (delete_request (JStr "acc1")) Stub.ready).
Proof.
  exact (proj1 (delete_account_failure_keeps_fields
                  (Stub.env_of Stub.down Stub.count_up) Stub.ready
                  (MailTmError "API 請求失敗: unavailable")
                  eq_refl eq_refl)).
Defined.

(** X12. Deleting is idempotent on the client: a [delete_account] on a
    client whose account identifier is unset (or otherwise false) returns
    without a request and changes nothing, so a second [delete_account]
    after one that returned adds no event: the two together made exactly
    one DELETE call. *)
Theorem delete_account_twice :
  forall env s,
    (truthy (account_id (self s)) = false ->
     delete_account env s = (Ok tt, s)) /\
    (forall s1,
        truthy (account_id (self s)) = true ->
        delete_account env s = (Ok tt, s1) ->
        (delete_account ;; delete_account)%py env s = (Ok tt, s1) /\
        trace s1 =
        (trace s ++ [EvRequest (delete_request (account_id (self s)))])%list).
Proof.
  intros env s. split.
  - intros Hunset. unfold delete_account, bind at 1, get_self.
    rewrite Hunset. reflexivity.
  - intros s1 Hset Hrun. rewrite (bind_ok _ _ env s tt s1 Hrun).
    rewrite delete_account_run in Hrun by exact Hset. cbv zeta in Hrun.
    destruct (answer env (trace s) _) as [e | j]; [discriminate |].
    inversion Hrun; subst. split; [| reflexivity].
    unfold delete_account, bind at 1, get_self. reflexivity.
Qed.

Lemma delete_account_twice_witness :
  (delete_account ;; delete_account)%py
    (Stub.env_of Stub.has_mail Stub.count_up) Stub.ready
  = (Ok tt,
     snd (delete_account (Stub.env_of Stub.has_mail Stub.count_up)
                         Stub.ready)) /\
  trace (snd (delete_account (Stub.env_of Stub.has_mail Stub.count_up)
                             Stub.ready))
  = [EvRequest (delete_request (JStr "acc1"))].
Proof.
  exact (proj2 (delete_account_twice
                  (Stub.env_of Stub.has_mail Stub.count_up) Stub.ready)
               _ eq_refl eq_refl).
Defined.

(* ================================================================== *)
(** ** Further properties: the handlers *)
(* ================================================================== *)

(** X13. On a server whose API key is missing or empty, each of the three
    handlers answers 500 with the same error text and does nothing else: no
    client is built, no request is made. *)
Theorem handlers_without_key :
  forall env fuel data account s key,
    key = None \/ key = Some "" ->
    api_create_account key env s
    = (Ok (error_body "Server is not configured with an API key.", 500), s) /\
    api_wait_for_message fuel key data env s
    = (Ok (error_body "Server is not configured with an API key.", 500), s) /\
    api_delete_account key account env s
    = (Ok (error_body "Server is not configured with an API key.", 500), s).
Proof.
  intros env fuel data account s key [-> | ->]; repeat split; reflexivity.
Qed.

Lemma handlers_without_key_witness :
  api_delete_account (Some "") "acc1"
    (Stub.env_of Stub.has_mail Stub.count_up) Stub.fresh
  = (Ok (error_body "Server is not configured with an API key.", 500),
     Stub.fresh).
Proof.
  exact (proj2 (proj2 (handlers_without_key
                         (Stub.env_of Stub.has_mail Stub.count_up)
                         0 JNull "acc1" Stub.fresh (Some "")
                         (or_intror eq_refl)))).
Defined.

Lemma api_create_account_run env key s :
  key <> "" ->
  api_create_account (Some key) env s =
  match create_new_account key "vvvcx.me" "thisispassword" 3 env s with
  | (Ok client, s1) => (Ok (response_data client, 201), closed s1)
  | (Err e, s1) =>
      (if is_AccountCreationError e
       then Ok (error_body (exn_str e), 500)
       else Err e, s1)
  | (OutOfFuel, s1) => (OutOfFuel, s1)
  end.
Proof.
  intros Hkey. destruct key as [| c key]; [contradiction |].
  cbn [api_create_account]. unfold try_finally_local, try_except, bind at 1.
  destruct (create_new_account (String c key) "vvvcx.me" "thisispassword" 3
              env s) as [[client | e |] s1]; try reflexivity.
  cbn [handle]. destruct (is_AccountCreationError e); reflexivity.
Qed.

(** X14. When the factory returns a client, [api_create_account] answers
    201 with that client's address, password, account and mailbox
    identifiers under the keys [address], [password], [accountId] and
    [mailboxId], and closes the session once, after the last request. *)
Theorem api_create_account_created :
  forall env key s client s1,
    key <> "" ->
    create_new_account key "vvvcx.me" "thisispassword" 3 env s
    = (Ok client, s1) ->
    api_create_account (Some key) env s
    = (Ok (response_data client, 201), closed s1) /\
    getitem (response_data client) "address" = inr (opt_str (address client))
    /\
    getitem (response_data client) "password"
    = inr (opt_str (password client)) /\
    getitem (response_data client) "accountId" = inr (account_id client) /\
    getitem (response_data client) "mailboxId" = inr (mailbox_id client).
Proof.
  intros env key s client s1 Hkey Hrun.
  rewrite api_create_account_run by exact Hkey. rewrite Hrun.
  repeat split; reflexivity.
Qed.

Lemma api_create_account_created_witness :
  fst (api_create_account (Some "key")
         (Stub.env_of Stub.fails_twice Stub.count_up) Stub.fresh)
  = Ok (response_data
          (mkClient "key" (Some "uvwxyz0123@vvvcx.me")
                    (Some "thisispassword") (JStr "acc1") (JStr "mb1")),
        201).
Proof.
  assert (Hkey : "key" <> "") by discriminate.
  assert (Hrun :
    create_new_account "key" "vvvcx.me" "thisispassword" 3
      (Stub.env_of Stub.fails_twice Stub.count_up) Stub.fresh
    = (Ok (mkClient "key" (Some "uvwxyz0123@vvvcx.me")
                    (Some "thisispassword") (JStr "acc1") (JStr "mb1")),
       snd (create_new_account "key" "vvvcx.me" "thisispassword" 3
              (Stub.env_of Stub.fails_twice Stub.count_up) Stub.fresh)))
    by (vm_compute; reflexivity).
  rewrite (proj1 (api_create_account_created
                    (Stub.env_of Stub.fails_twice Stub.count_up)
                    "key" Stub.fresh _ _ Hkey Hrun)).
  reflexivity.
Defined.

Lemma closes_concat t1 t2 : closes (t1 ++ t2) = (closes t1 + closes t2)%nat.
Proof. unfold closes. now rewrite filter_app, length_app. Qed.

(** X15. When the factory raises, [api_create_account] never closes the
    session the factory opened: the handler's [client] is still [None] in
    its [finally] clause. An [AccountCreationError] is answered 500 with its
    text, any other exception leaves the handler; in both cases the state is
    the one the factory left, with no close in it. *)
Theorem api_create_account_failure_leaves_session_open :
  forall env key s e s1,
    key <> "" ->
    create_new_account key "vvvcx.me" "thisispassword" 3 env s
    = (Err e, s1) ->
    api_create_account (Some key) env s
    = (if is_AccountCreationError e
       then Ok (error_body (exn_str e), 500)
       else Err e, s1) /\
    closes (trace s1) = closes (trace s).
Proof.
  intros env key s e s1 Hkey Hrun.
  rewrite api_create_account_run by exact Hkey. rewrite Hrun.
  split; [reflexivity |].
  destruct (create_new_account_events env key "vvvcx.me" "thisispassword" 3
              s _ _ Hkey Hrun) as [n [_ [Htrace _]]].
  rewrite Htrace, closes_concat, retry_trace_closes. lia.
Qed.

Lemma api_create_account_failure_leaves_session_open_witness :
  exists msg s1,
    api_create_account (Some "key") (Stub.env_of Stub.down Stub.count_up)
                       Stub.fresh
    = (Ok (error_body msg, 500), s1) /\
    closes (trace s1) = O.
Proof.
  assert (Hkey : "key" <> "") by discriminate.
  assert (Hrun :
    create_new_account "key" "vvvcx.me" "thisispassword" 3
      (Stub.env_of Stub.down Stub.count_up) Stub.fresh
    = (Err (AccountCreationError
              "創建帳號失敗，已達最大重試次數: API 請求失敗: unavailable"
              (Some (MailTmError "API 請求失敗: unavailable"))),
       snd (create_new_account "key" "vvvcx.me" "thisispassword" 3
              (Stub.env_of Stub.down Stub.count_up) Stub.fresh)))
    by (vm_compute; reflexivity).
  destruct (api_create_account_failure_leaves_session_open
              (Stub.env_of Stub.down Stub.count_up) "key" Stub.fresh _ _
              Hkey Hrun) as [Hreply Hcloses].
  eexists. eexists. split; [exact Hreply | exact Hcloses].
Defined.

Lemma api_delete_account_run env key account s :
  key <> "" ->
  account <> "" ->
  api_delete_account (Some key) account env s =
  let r := delete_request (JStr account) in
  let s0 := with_self s (mkClient key None None (JStr account) JNull) in
  match answer env (trace s) r with
  | inl e =>
      (if is_MailTmError e then Ok (error_body (exn_str e), 500) else Err e,
       closed (requested env r s0))
  | inr _ =>
      (Ok (JObj [("message",
                  JStr ("Account " ++ account ++ " deleted successfully."))],
           200),
       closed (with_self (requested env r s0)
                         (mkClient key None None JNull JNull)))
  end.
Proof.
  intros Hkey Haccount.
  destruct key as [| c key]; [contradiction |].
  cbn [api_delete_account].
  rewrite (bind_ok _ _ env s tt _
             (MailTmClient_run env (String c key) s Hkey)).
  unfold bind at 1, get_self at 1, bind at 1, put_self at 1.
  cbn [with_self clock trace drawn self api_key address password mailbox_id].
  cbv zeta.
  fold (with_self s (mkClient (String c key) None None (JStr account) JNull)).
  set (s0 := with_self s (mkClient (String c key) None None (JStr account)
                                   JNull)).
  assert (Hset : truthy (account_id (self s0)) = true).
  { cbn. destruct (String.eqb account "") eqn:E; [| reflexivity].
    apply String.eqb_eq in E. contradiction. }
  unfold try_finally, try_except, bind at 1.
  rewrite delete_account_run by exact Hset. cbv zeta.
  change (account_id (self s0)) with (JStr account).
  change (trace s0) with (trace s).
  destruct (answer env (trace s) (delete_request (JStr account)))
    as [e | j]; [| reflexivity].
  cbn [handle]. destruct (is_MailTmError e); reflexivity.
Qed.

(** X16. On a configured server, for a non-empty account identifier, the
    answer of [api_delete_account] follows the way the DELETE call comes
    back. When the call returns, the handler answers 200 with the account
    named in the message; when it fails at the gateway layer, the handler
    answers 500 with the error text; a 2xx body that is not JSON leaves the
    handler as [ValueError]. In each case that DELETE is the one request
    made, and the session is closed after it. *)
Theorem api_delete_account_outcome :
  forall env key account s,
    key <> "" ->
    account <> "" ->
    (forall j,
        answer env (trace s) (delete_request (JStr account)) = inr j ->
        exists s',
          api_delete_account (Some key) account env s
          = (Ok (JObj [("message",
                        JStr ("Account " ++ account
                              ++ " deleted successfully."))], 200), s') /\
          trace s' =
          (trace s ++ [EvRequest (delete_request (JStr account)); EvClose])
          %list) /\
    (forall e,
        answer env (trace s) (delete_request (JStr account)) = inl e ->
        exists s',
          api_delete_account (Some key) account env s
          = (if is_MailTmError e then Ok (error_body (exn_str e), 500)
             else Err e, s') /\
          trace s' =
          (trace s ++ [EvRequest (delete_request (JStr account)); EvClose])
          %list).
Proof.
  intros env key account s Hkey Haccount. split.
  - intros j Hans.
    rewrite (api_delete_account_run env key account s Hkey Haccount).
    cbv zeta. rewrite Hans. eexists. split; [reflexivity |].
    cbn [closed requested with_self trace]. now rewrite <- app_assoc.
  - intros e Hans.
    rewrite (api_delete_account_run env key account s Hkey Haccount).
    cbv zeta. rewrite Hans. eexists. split; [reflexivity |].
    cbn [closed requested with_self trace]. now rewrite <- app_assoc.
Qed.

Lemma api_delete_account_outcome_witness :
  exists s',
    api_delete_account (Some "key") "acc1"
      (Stub.env_of Stub.has_mail Stub.count_up) Stub.fresh
    = (Ok (JObj [("message", JStr "Account acc1 deleted successfully.")],
           200), s') /\
    trace s' = [EvRequest (delete_request (JStr "acc1")); EvClose].
Proof.
  assert (Hkey : "key" <> "") by discriminate.
  assert (Hacc : "acc1" <> "") by discriminate.
  exact (proj1 (api_delete_account_outcome
                  (Stub.env_of Stub.has_mail Stub.count_up) "key" "acc1"
                  Stub.fresh Hkey Hacc) JNull eq_refl).
Defined.

Lemma py_int_error f x e : py_int f x = inl e -> exists b, e = PyError b.
Proof.
  destruct x as [| b | z | q | str | items | fields]; cbn;
    try discriminate; try (inversion 1; eexists; reflexivity).
  destruct (f str); [discriminate | inversion 1; eexists; reflexivity].
Qed.

(** X17. When the body carries both identifiers but a timeout or an
    interval that [int] rejects, the exception leaves the handler (it is
    not a [MailTmError]); no request was made, and the session is closed
    all the same. *)
Theorem api_wait_for_message_bad_timing :
  forall env fuel key fields account mailbox e s,
    key <> "" ->
    lookup "accountId" fields = Some account ->
    lookup "mailboxId" fields = Some mailbox ->
    py_int (int_of_str env) (or_default (lookup "timeout" fields) (JInt 60))
    = inl e \/
    (exists t,
        py_int (int_of_str env)
               (or_default (lookup "timeout" fields) (JInt 60)) = inr t /\
        py_int (int_of_str env)
               (or_default (lookup "interval" fields) (JInt 5)) = inl e) ->
    api_wait_for_message fuel (Some key) (JObj fields) env s
    = (Err e, closed (polling_state key account mailbox s)) /\
    is_MailTmError e = false.
Proof.
  intros env fuel key fields account mailbox e s Hkey Ha Hm Hbad.
  assert (Hclass : is_MailTmError e = false /\
                   is_MessageTimeoutError e = false).
  { destruct Hbad as [H | [t [_ H]]]; apply py_int_error in H;
      destruct H as [b ->]; split; reflexivity. }
  destruct Hclass as [Hmail Htimeout]. split; [| exact Hmail].
  destruct key as [| c key]; [contradiction |].
  cbn [api_wait_for_message].
  rewrite (bind_ok _ _ env s false s
             (missing_ids_present env fields account mailbox s Ha Hm)).
  cbv beta iota.
  rewrite (bind_ok _ _ env s account s)
    by (unfold lift, getitem; now rewrite Ha).
  rewrite (bind_ok _ _ env s mailbox s)
    by (unfold lift, getitem; now rewrite Hm).
  rewrite (bind_ok _ _ env s
             (or_default (lookup "timeout" fields) (JInt 60)) s)
    by (unfold lift, dict_get_default, dict_get;
        now destruct (lookup "timeout" fields)).
  rewrite (bind_ok _ _ env s
             (or_default (lookup "interval" fields) (JInt 5)) s)
    by (unfold lift, dict_get_default, dict_get;
        now destruct (lookup "interval" fields)).
  rewrite (bind_ok _ _ env s tt _
             (MailTmClient_run env (String c key) s Hkey)).
  unfold bind at 1, get_self at 1, bind at 1, put_self at 1,
    bind at 1, get_self at 1, bind at 1, put_self at 1.
  cbn [with_self clock trace drawn self api_key address password account_id
       mailbox_id].
  fold (polling_state (String c key) account mailbox s).
  set (s0 := polling_state (String c key) account mailbox s).
  unfold try_finally, try_except.
  destruct Hbad as [Ht | [t [Ht Hi]]].
  - unfold bind at 1, to_int at 1. rewrite Ht. unfold lift, raise.
    cbn [handle]. rewrite Htimeout, Hmail. reflexivity.
  - rewrite (bind_ok _ _ env s0 t s0) by (unfold to_int; now rewrite Ht).
    unfold bind at 1, to_int at 1. rewrite Hi. unfold lift, raise.
    cbn [handle]. rewrite Htimeout, Hmail. reflexivity.
Qed.

Lemma api_wait_for_message_bad_timing_witness :
  api_wait_for_message 1 (Some "key")
    (JObj [("accountId", JStr "acc1"); ("mailboxId", JStr "mb1");
           ("timeout", JNull)])
    (Stub.env_of Stub.has_mail Stub.count_up) Stub.fresh
  = (Err (PyError TypeError),
     closed (polling_state "key" (JStr "acc1") (JStr "mb1") Stub.fresh)).
Proof.
  assert (Hkey : "key" <> "") by discriminate.
  exact (proj1 (api_wait_for_message_bad_timing
                  (Stub.env_of Stub.has_mail Stub.count_up) 1 "key"
                  [("accountId", JStr "acc1"); ("mailboxId", JStr "mb1");
                   ("timeout", JNull)]
                  (JStr "acc1") (JStr "mb1") (PyError TypeError) Stub.fresh
                  Hkey eq_refl eq_refl (or_introl eq_refl))).
Defined.

Lemma prefix_append k : forall s,
  prefix k s = true <-> exists after, s = k ++ after.
Proof.
  induction k as [| c k IH]; intros s.
  - destruct s; simpl; (split; [intros _; eexists; reflexivity | reflexivity]).
  - destruct s as [| c' s]; simpl.
    + split; [discriminate | intros [after H]; discriminate].
    + destruct (ascii_dec c c') as [<- | Hne].
      * rewrite IH. split; intros [after H]; exists after.
        -- now rewrite H.
        -- now inversion H.
      * split; [discriminate |].
        intros [after H]. inversion H. congruence.
Qed.

Lemma substring_of_spec k : forall s,
  substring_of k s = true <-> exists before after, s = before ++ k ++ after.
Proof.
  induction s as [| c s IH].
  - cbn [substring_of]. destruct (prefix k "") eqn:Hp.
    + apply prefix_append in Hp. destruct Hp as [after H].
      split; [intros _; exists "", after; exact H | reflexivity].
    + split; [discriminate |].
      intros [[| c before] [after H]]; [| discriminate].
      cbn [append] in H.
      assert (Hp' : prefix k "" = true)
        by (apply prefix_append; now exists after).
      congruence.
  - cbn [substring_of]. destruct (prefix k (String c s)) eqn:Hp.
    + apply prefix_append in Hp. destruct Hp as [after H].
      split; [intros _; exists "", after; exact H | reflexivity].
    + rewrite IH. split.
      * intros [before [after H]]. exists (String c before), after.
        cbn [append]. now rewrite H.
      * intros [[| c' before] [after H]].
        -- cbn [append] in H.
           assert (Hp' : prefix k (String c s) = true)
             by (apply prefix_append; now exists after).
           congruence.
        -- cbn [append] in H. inversion H. now exists before, after.
Qed.

(** On a list or a string, [k in data] is the test [holds_name]. *)
Lemma contains_holds data k :
  (exists items, data = JArr items) \/ (exists str, data = JStr str) ->
  exists b, contains data k = inr b /\ (b = true <-> holds_name data k).
Proof.
  intros [[items ->] | [str ->]]; cbn [contains holds_name];
    eexists; (split; [reflexivity |]).
  - rewrite existsb_exists. split.
    + intros [x [Hin Hx]]. destruct x; try discriminate.
      cbn [is_str] in Hx. apply String.eqb_eq in Hx. now subst.
    + intros Hin. exists (JStr k). split; [exact Hin |].
      cbn [is_str]. apply String.eqb_refl.
  - apply substring_of_spec.
Qed.

(** X18. A body that is not a JSON object is never polled, and what it
    gets is decided by its shape. A false body ([null], [false], zero, the
    empty string or list) is answered 400. A number other than zero, or
    [true], raises [TypeError]: [in] cannot search it. A list or a string
    that holds both names (as elements, as substrings) raises [TypeError]
    as well, from [data["accountId"]]; one that lacks either name is
    answered 400. No client is built and no request is made in any of these
    cases. *)
Theorem api_wait_for_message_body_not_an_object :
  forall env fuel key data s,
    key <> "" ->
    (forall fields, data <> JObj fields) ->
    (truthy data = false ->
     api_wait_for_message fuel (Some key) data env s
     = (Ok (error_body "Missing 'accountId' or 'mailboxId' in request body",
            400), s)) /\
    (data = JBool true \/
     (exists z, data = JInt z /\ z <> 0) \/
     (exists q, data = JFloat q /\ Qnum q <> 0) ->
     api_wait_for_message fuel (Some key) data env s
     = (Err (PyError TypeError), s)) /\
    ((exists items, data = JArr items) \/ (exists str, data = JStr str) ->
     (holds_name data "accountId" /\ holds_name data "mailboxId" ->
      api_wait_for_message fuel (Some key) data env s
      = (Err (PyError TypeError), s)) /\
     (~ (holds_name data "accountId" /\ holds_name data "mailboxId") ->
      api_wait_for_message fuel (Some key) data env s
      = (Ok (error_body "Missing 'accountId' or 'mailboxId' in request body",
             400), s))) /\
    (truthy data = false \/
     (data = JBool true \/
      (exists z, data = JInt z /\ z <> 0) \/
      (exists q, data = JFloat q /\ Qnum q <> 0)) \/
     ((exists items, data = JArr items) \/ (exists str, data = JStr str))).
Proof.
  intros env fuel key data s Hkey Hshape.
  destruct key as [| c key]; [contradiction |].
  split; [| split; [| split]]; cycle 3.
  { destruct data as [| [|] | z | q | str | items | fields].
    - now left.
    - right. left. now left.
    - now left.
    - destruct (Z.eq_dec z 0) as [-> | Hz]; [now left |].
      right. left. right. left. now exists z.
    - destruct (Z.eq_dec (Qnum q) 0) as [Hq | Hq].
      + left. cbn [truthy]. now rewrite Hq.
      + right. left. right. right. now exists q.
    - right. right. right. now exists str.
    - right. right. left. now exists items.
    - now contradiction (Hshape fields). }
  - intros Hfalse. cbn [api_wait_for_message].
    rewrite (bind_ok _ _ env s true s
               (missing_ids_absent env data s (or_introl Hfalse))).
    reflexivity.
  - intros Hnumber. cbn [api_wait_for_message].
    apply bind_err. now apply missing_ids_unsearchable.
  - intros Hseq.
    destruct (contains_holds data "accountId" Hseq) as [ba [Hca Hba]].
    destruct (contains_holds data "mailboxId" Hseq) as [bm [Hcm Hbm]].
    assert (Hempty : truthy data = false ->
                     ~ holds_name data "accountId").
    { destruct Hseq as [[items ->] | [str ->]]; cbn [truthy holds_name].
      - destruct items; [intros _ [] | discriminate].
      - destruct str; [| discriminate].
        intros _ [[| c' before] [after H]]; discriminate. }
    assert (Hitem : getitem data "accountId" = inl (PyError TypeError))
      by (destruct Hseq as [[items ->] | [str ->]]; reflexivity).
    cbn [api_wait_for_message]. unfold missing_ids.
    destruct (truthy data) eqn:Htruthy; cbn [negb].
    + unfold bind at 2, lift at 1. rewrite Hca. unfold ret at 1.
      destruct ba; cbn [negb].
      * unfold bind at 2, lift at 1. rewrite Hcm. unfold ret at 1.
        destruct bm; cbn [negb].
        -- split; [intros _ | intros Hnot; exfalso; apply Hnot; split;
                               [now apply Hba | now apply Hbm]].
           unfold bind at 1, ret at 1, bind at 1, lift at 1.
           now rewrite Hitem.
        -- split; [intros [_ Hm]; apply Hbm in Hm; discriminate |].
           intros _. reflexivity.
      * split; [intros [Ha _]; apply Hba in Ha; discriminate |].
        intros _. reflexivity.
    + split; [intros [Ha _]; now apply Hempty in Ha |].
      intros _. reflexivity.
Qed.

Lemma api_wait_for_message_body_not_an_object_witness :
  api_wait_for_message 1 (Some "key")
    (JArr [JStr "accountId"; JStr "mailboxId"])
    (Stub.env_of Stub.has_mail Stub.count_up) Stub.fresh
  = (Err (PyError TypeError), Stub.fresh) /\
  api_wait_for_message 1 (Some "key") (JStr "mailboxId only")
    (Stub.env_of Stub.has_mail Stub.count_up) Stub.fresh
  = (Ok (error_body "Missing 'accountId' or 'mailboxId' in request body",
         400), Stub.fresh).
Proof.
  assert (Hkey : "key" <> "") by discriminate.
  split.
  - assert (Hshape : forall fields,
               JArr [JStr "accountId"; JStr "mailboxId"] <> JObj fields)
      by (intros fields; discriminate).
    destruct (api_wait_for_message_body_not_an_object
                (Stub.env_of Stub.has_mail Stub.count_up) 1 "key"
                (JArr [JStr "accountId"; JStr "mailboxId"]) Stub.fresh
                Hkey Hshape) as [_ [_ [Hseq _]]].
    apply (proj1 (Hseq (or_introl (ex_intro _ _ eq_refl)))).
    split; [now left | right; now left].
  - assert (Hshape : forall fields, JStr "mailboxId only" <> JObj fields)
      by (intros fields; discriminate).
    destruct (api_wait_for_message_body_not_an_object
                (Stub.env_of Stub.has_mail Stub.count_up) 1 "key"
                (JStr "mailboxId only") Stub.fresh
                Hkey Hshape) as [_ [_ [Hseq _]]].
    apply (proj2 (Hseq (or_intror (ex_intro _ _ eq_refl)))).
    intros [Ha _]. apply substring_of_spec in Ha. discriminate.
Defined.

(** X19. A body that carries the two identifiers and neither [timeout] nor
    [interval] is polled with a timeout of 60 and an interval of 5, on a
    client built from the key and those two identifiers. *)
Theorem api_wait_for_message_defaults :
  forall env fuel key fields account mailbox s,
    key <> "" ->
    lookup "accountId" fields = Some account ->
    lookup "mailboxId" fields = Some mailbox ->
    lookup "timeout" fields = None ->
    lookup "interval" fields = None ->
    api_wait_for_message fuel (Some key) (JObj fields) env s =
    match wait_for_message fuel 60 5 env
                           (polling_state key account mailbox s) with
    | (Ok message, s1) => (Ok (message, 200), closed s1)
    | (Err e, s1) =>
        (if is_MessageTimeoutError e then Ok (error_body (exn_str e), 408)
         else if is_MailTmError e then Ok (error_body (exn_str e), 500)
         else Err e,
         closed s1)
    | (OutOfFuel, s1) => (OutOfFuel, s1)
    end.
Proof.
  intros env fuel key fields account mailbox s Hkey Ha Hm Ht Hi.
  apply api_wait_for_message_run; try assumption.
  - now rewrite Ht.
  - now rewrite Hi.
Qed.

Lemma api_wait_for_message_defaults_witness :
  api_wait_for_message 1 (Some "key")
    (JObj [("accountId", JStr "acc1"); ("mailboxId", JStr "mb1")])
    (Stub.env_of Stub.has_mail Stub.count_up) Stub.fresh
  = (Ok (Stub.message, 200),
     closed (requested (Stub.env_of Stub.has_mail Stub.count_up)
               (fetch_request (JStr "acc1") (JStr "mb1"))
               (polling_state "key" (JStr "acc1") (JStr "mb1") Stub.fresh))).
Proof.
  assert (Hkey : "key" <> "") by discriminate.
  rewrite (api_wait_for_message_defaults
             (Stub.env_of Stub.has_mail Stub.count_up) 1 "key"
             [("accountId", JStr "acc1"); ("mailboxId", JStr "mb1")]
             (JStr "acc1") (JStr "mb1") Stub.fresh
             Hkey eq_refl eq_refl eq_refl eq_refl).
  reflexivity.
Defined.

(** X20. Present but empty identifiers are not answered 400: when the body
    holds both names but one of the two values is false ([null], [""],
    [0], ...) and the timeout is positive, the poll raises the
    configuration error before any request and the handler answers 500
    with its text, after closing the session. *)
Theorem api_wait_for_message_empty_identifier :
  forall env fuel key fields account mailbox t i s,
    key <> "" ->
    lookup "accountId" fields = Some account ->
    lookup "mailboxId" fields = Some mailbox ->
    truthy account = false \/ truthy mailbox = false ->
    py_int (int_of_str env) (or_default (lookup "timeout" fields) (JInt 60))
    = inr t ->
    py_int (int_of_str env) (or_default (lookup "interval" fields) (JInt 5))
    = inr i ->
    0 < t ->
    api_wait_for_message (S fuel) (Some key) (JObj fields) env s
    = (Ok (error_body "帳號資訊未初始化，無法獲取訊息。", 500),
       closed (polling_state key account mailbox s)).
Proof.
  intros env fuel key fields account mailbox t i s
         Hkey Ha Hm Hfalse Ht Hi Hpos.
  rewrite (api_wait_for_message_run env (S fuel) key fields account mailbox
             t i s Hkey Ha Hm Ht Hi).
  unfold wait_for_message, bind at 1, loop_time.
  rewrite wait_loop_enter by lia.
  rewrite unset_ids_raise by exact Hfalse.
  reflexivity.
Qed.

Lemma api_wait_for_message_empty_identifier_witness :
  api_wait_for_message 1 (Some "key")
    (JObj [("accountId", JStr ""); ("mailboxId", JStr "mb1")])
    (Stub.env_of Stub.has_mail Stub.count_up) Stub.fresh
  = (Ok (error_body "帳號資訊未初始化，無法獲取訊息。", 500),
     closed (polling_state "key" (JStr "") (JStr "mb1") Stub.fresh)).
Proof.
  assert (Hkey : "key" <> "") by discriminate.
  assert (Hpos : 0 < 60) by lia.
  exact (api_wait_for_message_empty_identifier
           (Stub.env_of Stub.has_mail Stub.count_up) 0 "key"
           [("accountId", JStr ""); ("mailboxId", JStr "mb1")]
           (JStr "") (JStr "mb1") 60 5 Stub.fresh
           Hkey eq_refl eq_refl (or_introl eq_refl) eq_refl eq_refl Hpos).
Defined.

(** X22. What [get_latest_message] makes of the gateway's answer, on a
    client whose identifiers are set: an empty list, or the [None] of a
    204, gives [None]; a list that starts with an object gives that object,
    whatever follows; a list that starts with anything else raises
    [AttributeError] (the log line calls [get] on it). One request is made
    in each case. *)
Theorem get_latest_message_results :
  forall env s,
    truthy (account_id (self s)) = true ->
    truthy (mailbox_id (self s)) = true ->
    let r := fetch_request (account_id (self s)) (mailbox_id (self s)) in
    (answer env (trace s) r = inr (JArr []) \/
     answer env (trace s) r = inr JNull ->
     get_latest_message env s = (Ok JNull, requested env r s)) /\
    (forall fields others,
        answer env (trace s) r = inr (JArr (JObj fields :: others)) ->
        get_latest_message env s = (Ok (JObj fields), requested env r s)) /\
    (forall first others,
        answer env (trace s) r = inr (JArr (first :: others)) ->
        (forall fields, first <> JObj fields) ->
        get_latest_message env s
        = (Err (PyError AttributeError), requested env r s)).
Proof.
  intros env s Ha Hm r.
  rewrite get_latest_message_run by assumption. cbv zeta. fold r.
  split; [| split].
  - intros [-> | ->]; reflexivity.
  - intros fields others ->. reflexivity.
  - intros first others -> Hshape.
    destruct first as [| b | z | q | str | items | fields];
      try reflexivity.
    now contradiction (Hshape fields).
Qed.

Lemma get_latest_message_results_witness :
  get_latest_message (Stub.env_of Stub.has_mail Stub.count_up) Stub.ready
  = (Ok Stub.message,
     requested (Stub.env_of Stub.has_mail Stub.count_up)
               (fetch_request (JStr "acc1") (JStr "mb1")) Stub.ready).
Proof.
  exact (proj1 (proj2 (get_latest_message_results
                         (Stub.env_of Stub.has_mail Stub.count_up)
                         Stub.ready eq_refl eq_refl))
               [("id", JStr "m1"); ("intro", JStr "hello")] [] eq_refl).
Defined.
